(** * Gate-pass service: request lifecycle and pass validation

    A shallow embedding of the Express handlers of [server.js] and the
    properties of the request lifecycle, the pass verifier and the activity
    logger.

    The handlers are modelled as functions from the stored database (the
    parsed content of [database.json]) and the request body to the reply
    sent and the database left behind.  Handlers run one at a time; the
    file behind [readDB]/[writeDB] is the state that is threaded through,
    and reading or writing it is assumed not to fail. *)

From Stdlib Require Import Ascii.
From Stdlib Require Floats.SpecFloat.
From stdpp Require Import base numbers list strings pretty.

Set Warnings "-register-all".

(** ** JavaScript values

    Request bodies and the scanned pass are JSON: every field the handlers
    destructure is an arbitrary JSON value, or [undefined] when the field is
    absent.

    A number is a double.  One that is an integer is held as that integer
    ([VNum]); every other one (a double with a fractional part, an infinity,
    NaN) is held as the double itself ([VFloat]), in the binary64 format of
    the standard library's specification of IEEE 754. *)

Module JSNumber.

Definition double : Type := SpecFloat.spec_float.

Definition prec : Z := 53.
Definition emax : Z := 1024.

(** The double nearest to an integer. *)
Definition of_Z (z : Z) : double := SpecFloat.binary_normalize prec emax z 0 false.

(** [x * y], [x + y] and [x / y] on doubles, rounded to nearest, ties to
    even. *)
Definition mul (x y : double) : double := SpecFloat.SFmul prec emax x y.
Definition add (x y : double) : double := SpecFloat.SFadd prec emax x y.
Definition div (x y : double) : double := SpecFloat.SFdiv prec emax x y.

Definition is_nan (x : double) : bool :=
  match x with
  | SpecFloat.S754_nan => true
  | _ => false
  end.

Definition is_zero (x : double) : bool :=
  match x with
  | SpecFloat.S754_zero _ => true
  | _ => false
  end.

(** [x === y] on doubles: NaN equals nothing, the two zeros are equal. *)
Definition eqb (x y : double) : bool := SpecFloat.SFeqb x y.

(** The integer part of a finite double, towards zero
    ([ToIntegerOrInfinity]); [None] for NaN and the infinities. *)
Definition to_integer (x : double) : option Z :=
  match x with
  | SpecFloat.S754_zero _ => Some 0%Z
  | SpecFloat.S754_finite sign m e =>
      let magnitude :=
        match e with
        | Z0 => Zpos m
        | Zpos p => Z.shiftl (Zpos m) (Zpos p)
        | Zneg p => Z.shiftr (Zpos m) (Zpos p)
        end in
      Some (if sign then - magnitude else magnitude)%Z
  | SpecFloat.S754_infinity _ | SpecFloat.S754_nan => None
  end.

End JSNumber.

(** A number that is not NaN: an integer or another double. *)
Inductive num :=
| Int (n : Z)
| Float (f : JSNumber.double).

Inductive value :=
| VUndefined
| VNull
| VBool (b : bool)
| VNum (n : Z)
| VFloat (f : JSNumber.double)
| VStr (s : string)
| VArr (items : list value)
| VObj (props : list (string * value)).

(** [!!v]: the values that pass an [if (v)] test. *)
Definition truthy (v : value) : bool :=
  match v with
  | VUndefined | VNull => false
  | VBool b => b
  | VNum n => negb (n =? 0)%Z
  | VFloat f => negb (JSNumber.is_zero f || JSNumber.is_nan f)
  | VStr s => negb (String.eqb s "")
  | VArr _ | VObj _ => true
  end.

(** [a === b].  Objects and arrays compare by reference; the two sides of
    every comparison in the handlers come from different [JSON.parse] calls
    (the database file and the request body), so two objects are never the
    same reference. *)
Definition strict_eq (a b : value) : bool :=
  match a, b with
  | VUndefined, VUndefined => true
  | VNull, VNull => true
  | VBool x, VBool y => bool_decide (x = y)
  | VNum x, VNum y => (x =? y)%Z
  | VFloat x, VFloat y => JSNumber.eqb x y
  | VNum x, VFloat y | VFloat y, VNum x => JSNumber.eqb (JSNumber.of_Z x) y
  | VStr x, VStr y => String.eqb x y
  | _, _ => false
  end.

(** [a || b] *)
Definition or_else (a b : value) : value := if truthy a then a else b.

(** Own property of an object by key; [undefined] when missing. *)
Fixpoint assoc (k : string) (props : list (string * value)) : value :=
  match props with
  | [] => VUndefined
  | (k', v) :: rest => if String.eqb k k' then v else assoc k rest
  end.

(** [v.k] for the keys the verifier reads ([passId], [used], [expiresAt]),
    none of which is a built-in property of a primitive or an array.
    Reading a property of [null] or [undefined] is a [TypeError]: the
    handler's one read that can come first, [parsedData.passId], is
    modelled where it happens, in [verifyParsed]. *)
Definition nullish (v : value) : bool :=
  match v with
  | VUndefined | VNull => true
  | _ => false
  end.

Definition field (k : string) (v : value) : value :=
  match v with
  | VObj props => assoc k props
  | _ => VUndefined
  end.

(** [Array.prototype.find], returning the element found together with its
    index: the handlers mutate the object [find] returns, which is the
    array's own element. *)
Definition array_find {A} (f : A → bool) (l : list A) : option (nat * A) :=
  list_find (λ x, Is_true (f x)) l.

(** ** The parts of the JavaScript runtime the handlers call

    Left abstract: the rendering of a date, the parsing of dates and
    numbers out of strings (implementation-defined beyond the ISO format)
    and [JSON.parse]. *)
Class Runtime := {
  (** [Date.prototype.toISOString] of a valid time value (ms since epoch) *)
  toISOString : Z → string;
  (** the time value of [new Date(v)] for a string or an object [v];
      [None] is NaN, an invalid date *)
  Date_parse : value → option Z;
  (** [ToNumber(v)] for a string or an object [v]; [None] is NaN *)
  StringToNumber : value → option num;
  (** [JSON.parse(v)]; [None] is the [SyntaxError] *)
  JSON_parse : value → option value
}.

(** ** The database *)

Module Pass.
(** [qrData]: the pass payload stored in an approved request *)
Record t := {
  passId : string;
  studentId : value;
  studentName : value;
  reason : value;
  approvedAt : string;
  expiresAt : string;
  used : bool
}.
End Pass.

(** The inputs of one handler run that are not in the request: the clock,
    the random number and the outcome of the QR encoder. *)
Record sys := {
  (** [Date.now()] as read by [generateID] *)
  Date_now : Z;
  (** the time value of the handler's [new Date()] *)
  new_Date : Z;
  (** [Math.floor(Math.random() * 1000)], in 0..999 *)
  Math_random : Z;
  (** [await QRCode.toDataURL(JSON.stringify(qrData))]; [None] when the
      promise rejects *)
  toDataURL : Pass.t → option string
}.

Module User.
Record t := {
  id : value;
  name : value;
  username : value;
  password : value;
  role : value;
  email : value
}.
End User.

Module Request.
Record t := {
  id : string;
  studentId : value;
  studentName : value;
  reason : value;
  expectedTime : value;
  duration : value;
  status : string;
  createdAt : string;
  moderatorRemarks : value;
  qrCode : value;
  expiresAt : value;
  approvedAt : value;
  rejectionReason : value;
  rejectedAt : value;
  qrData : option Pass.t
}.
End Request.

Module Log.
Record t := {
  id : string;
  passId : value;
  studentId : value;
  studentName : value;
  type : value;
  timestamp : string;
  reason : value
}.
End Log.

Record DB := {
  users : list User.t;
  requests : list Request.t;
  logs : list Log.t
}.

(** ** Replies *)

Inductive reply :=
| Error (code : Z) (error : string)
    (** [res.status(code).json({ error })] *)
| SuccessRequest (request : Request.t)
    (** [res.json({ success: true, request })] *)
| SuccessLog (log : Log.t)
    (** [res.json({ success: true, log })] *)
| Verdict (valid : bool) (message color : string) (details : option value)
    (** [res.json({ valid, message, color, details })] *)
| Threw (exn : string).
    (** an exception no handler code catches *)

(** The error classes of the lifecycle, as the handlers report them. *)
Definition InvalidState : reply := Error 400 "Request already processed".
Definition EncodingFailure : reply := Error 500 "Failed to generate QR code".

(** ** Helpers of [server.js] and of the language *)

(** [generateID(prefix)]: the prefix, [Date.now()] and a random integer
    below 1000, concatenated in decimal. *)
Definition generateID (prefix : string) (s : sys) : string :=
  prefix +:+ pretty (Date_now s) +:+ pretty (Math_random s).

(** The time values a [Date] can hold; [None] is the invalid date. *)
Definition TimeClip (t : Z) : option Z :=
  if (Z.abs t >? 8640000000000000)%Z then None else Some t.

(** [TimeClip] of a number: a double is cut to its integer part first. *)
Definition TimeClip_number (x : num) : option Z :=
  match x with
  | Int n => TimeClip n
  | Float f => t ← JSNumber.to_integer f; TimeClip t
  end.

(** [ToNumber(v)], as applied by [*]; [None] is NaN. *)
Definition ToNumber `{!Runtime} (v : value) : option num :=
  match v with
  | VUndefined => None
  | VNull => Some (Int 0)
  | VBool b => Some (Int (if b then 1 else 0))
  | VNum n => Some (Int n)
  | VFloat f => if JSNumber.is_nan f then None else Some (Float f)
  | VStr _ | VArr _ | VObj _ => StringToNumber v
  end.

(** The time value of [new Date(v)]. *)
Definition Date_of `{!Runtime} (v : value) : option Z :=
  match v with
  | VStr _ | VArr _ | VObj _ => Date_parse v
  | _ => x ← ToNumber v; TimeClip_number x
  end.

(** [a > b] on two dates: the comparison of their time values, false as
    soon as one of them is invalid. *)
Definition date_gt (a b : option Z) : bool :=
  match a, b with
  | Some x, Some y => (x >? y)%Z
  | _, _ => false
  end.

Section handlers.
Context `{!Runtime}.

(** ** [POST /api/requests/create] *)

(** The [newRequest] object literal. *)
Definition newRequestOf (s : sys) (student : User.t)
    (studentId reason expectedTime duration : value) : Request.t :=
  {| Request.id := generateID "REQ" s;
     Request.studentId := studentId;
     Request.studentName := User.name student;
     Request.reason := reason;
     Request.expectedTime := expectedTime;
     Request.duration := duration;
     Request.status := "pending";
     Request.createdAt := toISOString (new_Date s);
     Request.moderatorRemarks := VNull;
     Request.qrCode := VNull;
     Request.expiresAt := VNull;
     Request.approvedAt := VUndefined;
     Request.rejectionReason := VUndefined;
     Request.rejectedAt := VUndefined;
     Request.qrData := None |}.

(** [db.users.find(u => u.id === studentId && u.role === 'student')] *)
Definition find_student (db : DB) (studentId : value) : option (nat * User.t) :=
  array_find (λ u, strict_eq (User.id u) studentId
                   && strict_eq (User.role u) (VStr "student"))
             (users db).

Definition createRequest (s : sys) (db : DB)
    (studentId reason expectedTime duration : value) : reply * DB :=
  if negb (truthy studentId) || negb (truthy reason)
     || negb (truthy expectedTime) || negb (truthy duration)
  then (Error 400 "All fields required", db)
  else
    match find_student db studentId with
    | None => (Error 404 "Student not found", db)
    | Some (_, student) =>
        let newRequest :=
          newRequestOf s student studentId reason expectedTime duration in
        (SuccessRequest newRequest,
         {| users := users db;
            requests := requests db ++ [newRequest];
            logs := logs db |})
    end.

(** [db.requests.find(r => r.id === requestId)] *)
Definition find_request (db : DB) (requestId : value) : option (nat * Request.t) :=
  array_find (λ r, strict_eq (VStr (Request.id r)) requestId) (requests db).

(** The database after the request at index [i] has been mutated into
    [request] and the whole database written back. *)
Definition write_request (db : DB) (i : nat) (request : Request.t) : DB :=
  {| users := users db;
     requests := <[i := request]> (requests db);
     logs := logs db |}.

(** ** [POST /api/requests/approve] *)

(** The time value of
    [new Date(approvalTime.getTime() + d * 60 * 60 * 1000)] for a duration
    that converts to the number [d]; [None] is the invalid date.

    The approval time is a valid time value.  For an integer [d] the
    products and the sum are integers that doubles hold exactly whenever
    the resulting date is valid (it is at most 8.64e15 in magnitude, and
    [d * 3600000] is a multiple of 128), and a sum beyond that bound is an
    invalid date in doubles as well.  For any other [d] the products and
    the sum are those of doubles, and [new Date] cuts the sum to a whole
    number of milliseconds. *)
Definition hours_after (approvalTime : Z) (d : num) : option Z :=
  match d with
  | Int n => TimeClip (approvalTime + n * 60 * 60 * 1000)%Z
  | Float f =>
      TimeClip_number
        (Float (JSNumber.add (JSNumber.of_Z approvalTime)
                  (JSNumber.mul
                     (JSNumber.mul (JSNumber.mul f (JSNumber.of_Z 60))
                        (JSNumber.of_Z 60))
                     (JSNumber.of_Z 1000))))
  end.

Definition expiryOf (approvalTime : Z) (request : Request.t) : option Z :=
  d ← ToNumber (Request.duration request);
  hours_after approvalTime d.

(** The [qrData] object literal. *)
Definition qrDataOf (approvalTime expiryTime : Z) (request : Request.t) : Pass.t :=
  {| Pass.passId := Request.id request;
     Pass.studentId := Request.studentId request;
     Pass.studentName := Request.studentName request;
     Pass.reason := Request.reason request;
     Pass.approvedAt := toISOString approvalTime;
     Pass.expiresAt := toISOString expiryTime;
     Pass.used := false |}.

(** The request after the six assignments of the [try] block. *)
Definition approved (request : Request.t) (remarks : value)
    (approvalTime expiryTime : Z) (qrCodeURL : string) (qrData : Pass.t) : Request.t :=
  {| Request.id := Request.id request;
     Request.studentId := Request.studentId request;
     Request.studentName := Request.studentName request;
     Request.reason := Request.reason request;
     Request.expectedTime := Request.expectedTime request;
     Request.duration := Request.duration request;
     Request.status := "approved";
     Request.createdAt := Request.createdAt request;
     Request.moderatorRemarks := or_else remarks (VStr "Approved");
     Request.qrCode := VStr qrCodeURL;
     Request.expiresAt := VStr (toISOString expiryTime);
     Request.approvedAt := VStr (toISOString approvalTime);
     Request.rejectionReason := Request.rejectionReason request;
     Request.rejectedAt := Request.rejectedAt request;
     Request.qrData := Some qrData |}.

Definition approve (s : sys) (db : DB) (requestId remarks : value) : reply * DB :=
  if negb (truthy requestId) then (Error 400 "Request ID required", db)
  else
    match find_request db requestId with
    | None => (Error 404 "Request not found", db)
    | Some (i, request) =>
        if negb (String.eqb (Request.status request) "pending")
        then (Error 400 "Request already processed", db)
        else
          let approvalTime := new_Date s in
          match expiryOf approvalTime request with
          | None =>
              (* [expiryTime.toISOString()] throws on an invalid date, before
                 the [try] block is entered *)
              (Threw "RangeError: Invalid time value", db)
          | Some expiryTime =>
              let qrData := qrDataOf approvalTime expiryTime request in
              match toDataURL s qrData with
              | None => (Error 500 "Failed to generate QR code", db)
              | Some qrCodeURL =>
                  let request' :=
                    approved request remarks approvalTime expiryTime qrCodeURL qrData in
                  (SuccessRequest request', write_request db i request')
              end
          end
    end.

(** ** [POST /api/requests/reject] *)

(** The request after the three assignments of the handler. *)
Definition rejected (request : Request.t) (reason : value) (now : Z) : Request.t :=
  {| Request.id := Request.id request;
     Request.studentId := Request.studentId request;
     Request.studentName := Request.studentName request;
     Request.reason := Request.reason request;
     Request.expectedTime := Request.expectedTime request;
     Request.duration := Request.duration request;
     Request.status := "rejected";
     Request.createdAt := Request.createdAt request;
     Request.moderatorRemarks := Request.moderatorRemarks request;
     Request.qrCode := Request.qrCode request;
     Request.expiresAt := Request.expiresAt request;
     Request.approvedAt := Request.approvedAt request;
     Request.rejectionReason := reason;
     Request.rejectedAt := VStr (toISOString now);
     Request.qrData := Request.qrData request |}.

Definition reject (s : sys) (db : DB) (requestId reason : value) : reply * DB :=
  if negb (truthy requestId) || negb (truthy reason)
  then (Error 400 "Request ID and reason required", db)
  else
    match find_request db requestId with
    | None => (Error 404 "Request not found", db)
    | Some (i, request) =>
        if negb (String.eqb (Request.status request) "pending")
        then (Error 400 "Request already processed", db)
        else
          let request' := rejected request reason (new_Date s) in
          (SuccessRequest request', write_request db i request')
    end.

(** ** [POST /api/qr/verify]

    [verifyParsed] is the handler from the point where the scanned text
    has been parsed (lines 230 to 274 of [server.js]). *)
Definition verifyParsed (s : sys) (db : DB) (parsedData : value) : reply :=
  if nullish parsedData then
    (* [parsedData.passId] is read in the callback of [find], once for
       each stored request until one matches: reading it throws on the
       first request, and is not reached when there is none *)
    match requests db with
    | [] => Verdict false "Pass not found" "red" None
    | _ :: _ => Threw "TypeError"
    end
  else
    match find_request db (field "passId" parsedData) with
    | None => Verdict false "Pass not found" "red" None
    | Some (_, request) =>
        if negb (String.eqb (Request.status request) "approved")
        then Verdict false "Pass not approved" "red" None
        else if truthy (field "used" parsedData)
        then Verdict false "Pass already used" "red" None
        else
          let now := Some (new_Date s) in
          let expiryTime := Date_of (field "expiresAt" parsedData) in
          if date_gt now expiryTime
          then Verdict false "Pass expired" "red" (Some parsedData)
          else Verdict true "Valid pass" "green" (Some parsedData)
    end.

Definition verify (s : sys) (db : DB) (qrData : value) : reply * DB :=
  if negb (truthy qrData) then (Error 400 "QR data required", db)
  else
    match JSON_parse qrData with
    | None => (Error 400 "Invalid QR data format", db)
    | Some parsedData => (verifyParsed s db parsedData, db)
    end.

(** [request.qrData.used = true] *)
Definition mark_used (p : Pass.t) : Pass.t :=
  {| Pass.passId := Pass.passId p;
     Pass.studentId := Pass.studentId p;
     Pass.studentName := Pass.studentName p;
     Pass.reason := Pass.reason p;
     Pass.approvedAt := Pass.approvedAt p;
     Pass.expiresAt := Pass.expiresAt p;
     Pass.used := true |}.

(** [if (request.qrData) { request.qrData.used = true; }] *)
Definition consume (request : Request.t) : Request.t :=
  {| Request.id := Request.id request;
     Request.studentId := Request.studentId request;
     Request.studentName := Request.studentName request;
     Request.reason := Request.reason request;
     Request.expectedTime := Request.expectedTime request;
     Request.duration := Request.duration request;
     Request.status := Request.status request;
     Request.createdAt := Request.createdAt request;
     Request.moderatorRemarks := Request.moderatorRemarks request;
     Request.qrCode := Request.qrCode request;
     Request.expiresAt := Request.expiresAt request;
     Request.approvedAt := Request.approvedAt request;
     Request.rejectionReason := Request.rejectionReason request;
     Request.rejectedAt := Request.rejectedAt request;
     Request.qrData := mark_used <$> Request.qrData request |}.

(** ** [POST /api/logs/entry] *)

(** The [logEntry] object literal. *)
Definition logEntryOf (s : sys) (request : Request.t) (passId type : value) : Log.t :=
  {| Log.id := generateID "LOG" s;
     Log.passId := passId;
     Log.studentId := Request.studentId request;
     Log.studentName := Request.studentName request;
     Log.type := type;
     Log.timestamp := toISOString (new_Date s);
     Log.reason := Request.reason request |}.

Definition recordEntry (s : sys) (db : DB) (passId type qrData : value) : reply * DB :=
  if negb (truthy passId) || negb (truthy type)
  then (Error 400 "Pass ID and type required", db)
  else
    match find_request db passId with
    | None => (Error 404 "Pass not found", db)
    | Some (i, request) =>
        let logEntry := logEntryOf s request passId type in
        (SuccessLog logEntry,
         {| users := users db;
            requests := <[i := consume request]> (requests db);
            logs := logs db ++ [logEntry] |})
    end.

(** ** Sequences of operations *)

Inductive op :=
| CreateRequest (studentId reason expectedTime duration : value)
| Approve (requestId remarks : value)
| Reject (requestId reason : value)
| Verify (qrData : value)
| RecordEntry (passId type qrData : value).

Definition step (db : DB) (c : sys * op) : reply * DB :=
  let '(s, o) := c in
  match o with
  | CreateRequest studentId reason expectedTime duration =>
      createRequest s db studentId reason expectedTime duration
  | Approve requestId remarks => approve s db requestId remarks
  | Reject requestId reason => reject s db requestId reason
  | Verify qrData => verify s db qrData
  | RecordEntry passId type qrData => recordEntry s db passId type qrData
  end.

(** The database after a sequence of operations, run one after the other. *)
Definition run (db : DB) (cs : list (sys * op)) : DB :=
  foldl (λ db c, (step db c).2) db cs.

End handlers.

(** ** A runtime to run the handlers on examples

    [toISOString] is the real rendering.  Of the parsers, this runtime
    implements the part the service's own data exercises: dates in the
    format [toISOString] writes, decimal numbers without exponent, and
    JSON texts without string escapes; it rejects everything else. *)

Module Reference.

Fixpoint zeros (k : nat) : string :=
  match k with
  | O => ""
  | S k => "0" +:+ zeros k
  end.

Definition pad (width : nat) (n : Z) : string :=
  let digits := pretty n in
  zeros (width - String.length digits) +:+ digits.

(** Year, month and day of a day number counted from 1970-01-01. *)
Definition civil_from_days (z : Z) : Z * Z * Z :=
  (let z := z + 719468 in
   let era := z / 146097 in
   let doe := z - era * 146097 in
   let yoe := (doe - doe / 1460 + doe / 36524 - doe / 146096) / 365 in
   let doy := doe - (365 * yoe + yoe / 4 - yoe / 100) in
   let mp := (5 * doy + 2) / 153 in
   let d := doy - (153 * mp + 2) / 5 + 1 in
   let m := if mp <? 10 then mp + 3 else mp - 9 in
   (yoe + era * 400 + (if m <=? 2 then 1 else 0), m, d))%Z.

Definition days_from_civil (y m d : Z) : Z :=
  (let y := if m <=? 2 then y - 1 else y in
   let era := y / 400 in
   let yoe := y - era * 400 in
   let doy := (153 * (if 2 <? m then m - 3 else m + 9) + 2) / 5 + d - 1 in
   let doe := yoe * 365 + yoe / 4 - yoe / 100 + doy in
   era * 146097 + doe - 719468)%Z.

Definition iso_year (y : Z) : string :=
  if ((0 <=? y) && (y <=? 9999))%Z then pad 4 y
  else (if (y <? 0)%Z then "-" else "+") +:+ pad 6 (Z.abs y).

Definition iso (t : Z) : string :=
  let '(y, m, d) := civil_from_days (t / 86400000)%Z in
  let ms := (t mod 86400000)%Z in
  iso_year y +:+ "-" +:+ pad 2 m +:+ "-" +:+ pad 2 d +:+ "T"
  +:+ pad 2 (ms / 3600000)%Z +:+ ":" +:+ pad 2 (ms / 60000 mod 60)%Z
  +:+ ":" +:+ pad 2 (ms / 1000 mod 60)%Z +:+ "." +:+ pad 3 (ms mod 1000)%Z
  +:+ "Z".

Definition digit (c : ascii) : option Z :=
  let n := Z.of_nat (nat_of_ascii c) in
  if ((48 <=? n) && (n <=? 57))%Z then Some (n - 48)%Z else None.

(** The number a string of decimal digits denotes, from the accumulator. *)
Fixpoint digits (acc : Z) (s : string) : option Z :=
  match s with
  | "" => Some acc
  | String c rest => d ← digit c; digits (acc * 10 + d)%Z rest
  end.

Definition number (s : string) : option Z :=
  match s with
  | "" => None
  | _ => digits 0 s
  end.

(** [YYYY-MM-DDTHH:mm:ss.sssZ], accepted when it is the rendering of the
    time value read off it. *)
Definition parse_iso (s : string) : option Z :=
  if bool_decide (String.length s = 24) then
    y ← number (String.substring 0 4 s);
    m ← number (String.substring 5 2 s);
    d ← number (String.substring 8 2 s);
    hh ← number (String.substring 11 2 s);
    mm ← number (String.substring 14 2 s);
    ss ← number (String.substring 17 2 s);
    ms ← number (String.substring 20 3 s);
    let t := (days_from_civil y m d * 86400000
              + hh * 3600000 + mm * 60000 + ss * 1000 + ms)%Z in
    if String.eqb (iso t) s then Some t else None
  else None.

(** *** JSON texts *)

Definition is_ws (c : ascii) : bool :=
  bool_decide (c = " "%char) || bool_decide (nat_of_ascii c = 10)
  || bool_decide (nat_of_ascii c = 13) || bool_decide (nat_of_ascii c = 9).

Fixpoint skip_ws (s : string) : string :=
  match s with
  | String c rest => if is_ws c then skip_ws rest else s
  | "" => ""
  end.

(** The double quote. *)
Definition dquote : ascii := ascii_of_nat 34.

(** The characters up to the closing quote; no escapes. *)
Fixpoint string_body (s : string) : option (string * string) :=
  match s with
  | "" => None
  | String c rest =>
      if Ascii.eqb c dquote then Some ("", rest)
      else if Ascii.eqb c "\"%char then None
      else '(body, rest') ← string_body rest; Some (String c body, rest')
  end.

Fixpoint take_digits (s : string) : string * string :=
  match s with
  | String c rest =>
      match digit c with
      | Some _ => let '(ds, rest') := take_digits rest in (String c ds, rest')
      | None => ("", s)
      end
  | "" => ("", "")
  end.

Fixpoint all_zeros (s : string) : bool :=
  match s with
  | "" => true
  | String c rest => Ascii.eqb c "0" && all_zeros rest
  end.

(** The number with integer digits [ip] and fraction digits [fd]: the
    integer when the fraction is zero, else the double nearest to the
    decimal, which is the quotient in doubles of two integers that doubles
    hold exactly (at most 2^53, and a power of ten up to 10^22). *)
Definition decimal (negative : bool) (ip fd : string) : option num :=
  n ← digits 0 ip;
  if all_zeros fd then Some (Int (if negative then - n else n)%Z)
  else
    m ← digits n fd;
    let k := Z.of_nat (String.length fd) in
    if ((m <=? 2 ^ 53) && (k <=? 22))%Z then
      Some (Float (JSNumber.div
                     (JSNumber.of_Z (if negative then - m else m)%Z)
                     (JSNumber.of_Z (10 ^ k))))
    else None.

(** A number literal of JSON without its sign: no leading zero, no
    exponent. *)
Definition unsigned_literal (negative : bool) (s : string) :
    option (value * string) :=
  let '(ip, rest) := take_digits s in
  match ip with
  | "" => None
  | String "0" (String _ _) => None
  | _ =>
      '(fd, rest') ←
        match rest with
        | String "." rest1 =>
            let '(fd, rest2) := take_digits rest1 in
            match fd with
            | "" => None
            | _ => Some (fd, rest2)
            end
        | _ => Some ("", rest)
        end;
      match rest' with
      | String "e" _ | String "E" _ => None
      | _ =>
          x ← decimal negative ip fd;
          Some (match x with Int n => VNum n | Float f => VFloat f end, rest')
      end
  end.

Definition expect (word : string) (v : value) (s : string) : option (value * string) :=
  if String.prefix word s
  then Some (v, String.substring (String.length word) (String.length s - String.length word) s)
  else None.

(** Assignment of an own property: an existing key keeps its place. *)
Fixpoint set_prop (k : string) (v : value) (props : list (string * value)) :
    list (string * value) :=
  match props with
  | [] => [(k, v)]
  | (k', v') :: rest =>
      if String.eqb k k' then (k, v) :: rest else (k', v') :: set_prop k v rest
  end.

Fixpoint parse_value (fuel : nat) (s : string) : option (value * string) :=
  match fuel with
  | O => None
  | S fuel =>
      match skip_ws s with
      | "" => None
      | String c rest as w =>
          if Ascii.eqb c dquote then
            '(str, rest') ← string_body rest; Some (VStr str, rest')
          else if Ascii.eqb c "{" then
            match skip_ws rest with
            | String "}" rest' => Some (VObj [], rest')
            | _ => parse_members fuel rest []
            end
          else if Ascii.eqb c "[" then
            match skip_ws rest with
            | String "]" rest' => Some (VArr [], rest')
            | _ => parse_elements fuel rest []
            end
          else if Ascii.eqb c "t" then expect "true" (VBool true) w
          else if Ascii.eqb c "f" then expect "false" (VBool false) w
          else if Ascii.eqb c "n" then expect "null" VNull w
          else if Ascii.eqb c "-" then
            unsigned_literal true rest
          else unsigned_literal false w
      end
  end
with parse_members (fuel : nat) (s : string) (acc : list (string * value)) :
    option (value * string) :=
  match fuel with
  | O => None
  | S fuel =>
      match skip_ws s with
      | "" => None
      | String c rest =>
          if Ascii.eqb c dquote then
            '(key, rest1) ← string_body rest;
            match skip_ws rest1 with
            | String ":" rest2 =>
                '(v, rest3) ← parse_value fuel rest2;
                match skip_ws rest3 with
                | String "," rest4 => parse_members fuel rest4 (set_prop key v acc)
                | String "}" rest4 => Some (VObj (set_prop key v acc), rest4)
                | _ => None
                end
            | _ => None
            end
          else None
      end
  end
with parse_elements (fuel : nat) (s : string) (acc : list value) :
    option (value * string) :=
  match fuel with
  | O => None
  | S fuel =>
      '(v, rest) ← parse_value fuel s;
      match skip_ws rest with
      | String "," rest' => parse_elements fuel rest' (acc ++ [v])
      | String "]" rest' => Some (VArr (acc ++ [v]), rest')
      | _ => None
      end
  end.

Definition parse_json (s : string) : option value :=
  '(v, rest) ← parse_value (S (String.length s)) s;
  match skip_ws rest with
  | "" => Some v
  | _ => None
  end.

(** [JSON.parse] converts its argument to a string first. *)
Definition parse_json_value (v : value) : option value :=
  match v with
  | VStr s => parse_json s
  | VNum n => Some (VNum n)
  | VFloat f =>
      match JSNumber.to_integer f with
      | Some _ => Some (VFloat f)
      | None => None
      end
  | VBool b => Some (VBool b)
  | VNull => Some VNull
  | VUndefined | VArr _ | VObj _ => None
  end.

(** [ToNumber] of a string of digits with an optional sign and an optional
    fraction; the empty string is [0]. *)
Definition string_to_number (s : string) : option num :=
  let '(negative, body) :=
    match s with
    | String "-" rest => (true, rest)
    | _ => (false, s)
    end in
  match s with
  | "" => Some (Int 0)
  | _ =>
      let '(ip, rest) := take_digits body in
      match ip, rest with
      | "", _ => None
      | _, "" => decimal negative ip ""
      | _, String "." rest1 =>
          let '(fd, rest2) := take_digits rest1 in
          match rest2 with
          | "" => decimal negative ip fd
          | _ => None
          end
      | _, _ => None
      end
  end.

Definition runtime : Runtime := {|
  toISOString := iso;
  Date_parse v := match v with VStr s => parse_iso s | _ => None end;
  StringToNumber v :=
    match v with
    | VStr s => string_to_number s
    | _ => None
    end;
  JSON_parse := parse_json_value
|}.

End Reference.

(** ** Notions the properties are stated with *)

(** The status of the request stored at index [i]. *)
Definition status_at (db : DB) (i : nat) : option string :=
  Request.status <$> requests db !! i.

(** What may become of a status: it stays, or a pending request is decided. *)
Definition status_moves (st st' : string) : Prop :=
  st' = st ∨ (st = "pending" ∧ (st' = "approved" ∨ st' = "rejected")).

(** A request on which no decision has left a trace: the fields that only
    an approval assigns are as [createRequest] initialised them. *)
Definition unapproved (request : Request.t) : Prop :=
  Request.moderatorRemarks request = VNull
  ∧ Request.qrCode request = VNull
  ∧ Request.expiresAt request = VNull
  ∧ Request.approvedAt request = VUndefined
  ∧ Request.qrData request = None.

(** The database invariant that pending requests are unapproved. *)
Definition pending_unapproved (db : DB) : Prop :=
  ∀ i request,
    requests db !! i = Some request →
    Request.status request = "pending" → unapproved request.

(** The server-side [used] flag of the pass that [passId] resolves to. *)
Definition stored_used (db : DB) (passId : value) : option bool :=
  '(_, request) ← find_request db passId;
  Pass.used <$> Request.qrData request.





(** ** Example data *)

Module Example.

Definition asha : User.t :=
  {| User.id := VStr "STU001"; User.name := VStr "Asha Rao";
     User.username := VStr "asha"; User.password := VStr "asha123";
     User.role := VStr "student"; User.email := VStr "asha@college.edu" |}.

Definition warden : User.t :=
  {| User.id := VStr "MOD001"; User.name := VStr "R. Iyer";
     User.username := VStr "warden"; User.password := VStr "mod123";
     User.role := VStr "moderator"; User.email := VStr "warden@college.edu" |}.

Definition db0 : DB := {| users := [warden; asha]; requests := []; logs := [] |}.

(** A run at time [t] in which the encoder succeeds. *)
Definition at_time (t : Z) : sys :=
  {| Date_now := t; new_Date := t; Math_random := 417;
     toDataURL := λ p, Some ("data:image/png;base64," +:+ Pass.passId p) |}.

(** A run at time [t] in which the encoder fails. *)
Definition encoder_down (t : Z) : sys :=
  {| Date_now := t; new_Date := t; Math_random := 417;
     toDataURL := λ _, None |}.

(** 2023-11-14T22:13:20.000Z *)
Definition t0 : Z := 1700000000000.

Definition reqId : value := VStr "REQ1700000000000417".

(** The database after asha asked for two hours of leave. *)
Definition db1 : DB :=
  (createRequest (H := Reference.runtime) (at_time t0) db0
     (VStr "STU001") (VStr "medical") (VStr "2023-11-15T09:00") (VNum 2)).2.

(** ... after the warden approved it a minute later, *)
Definition db2 : DB :=
  (approve (H := Reference.runtime) (at_time (t0 + 60000)) db1 reqId (VStr "ok")).2.

(** ... and after the gatekeeper logged the exit. *)
Definition db3 : DB :=
  (recordEntry (H := Reference.runtime) (at_time (t0 + 120000)) db2
     reqId (VStr "exit") VUndefined).2.


(** The text of the issued pass, as scanned: the members of the [qrData]
    object in the order of the literal. *)
Definition quoted (s : string) : string :=
  String Reference.dquote s +:+ String Reference.dquote "".

Definition member (key value : string) : string := quoted key +:+ ":" +:+ value.

Definition scanned : string :=
  "{" +:+ member "passId" (quoted "REQ1700000000000417")
  +:+ "," +:+ member "studentId" (quoted "STU001")
  +:+ "," +:+ member "studentName" (quoted "Asha Rao")
  +:+ "," +:+ member "reason" (quoted "medical")
  +:+ "," +:+ member "approvedAt" (quoted "2023-11-14T22:14:20.000Z")
  +:+ "," +:+ member "expiresAt" (quoted "2023-11-15T00:14:20.000Z")
  +:+ "," +:+ member "used" "false" +:+ "}".

Definition payload : value :=
  VObj [("passId", VStr "REQ1700000000000417"); ("studentId", VStr "STU001");
        ("studentName", VStr "Asha Rao"); ("reason", VStr "medical");
        ("approvedAt", VStr "2023-11-14T22:14:20.000Z");
        ("expiresAt", VStr "2023-11-15T00:14:20.000Z");
        ("used", VBool false)].

End Example.

(** * The rest of the service *)

(** ** [readDB]

    The file either holds a database or cannot be read or parsed, in
    which case the handlers work on an empty database. *)
Definition emptyDB : DB := {| users := []; requests := []; logs := [] |}.

Definition readDB (file : option DB) : DB := default emptyDB file.

(** [Array.prototype.filter] *)
Definition array_filter {A} (f : A → bool) (l : list A) : list A :=
  filter (λ x, Is_true (f x)) l.

(** ** [POST /api/login] *)

Inductive loginReply :=
| LoginError (code : Z) (error : string)
    (** [res.status(code).json({ error })] *)
| LoginSuccess (id name role email : value).
    (** [res.json({ success: true, user: { id, name, role, email } })] *)

Definition login (db : DB) (username password : value) : loginReply :=
  if negb (truthy username) || negb (truthy password)
  then LoginError 400 "Username and password required"
  else
    match array_find (λ u, strict_eq (User.username u) username
                           && strict_eq (User.password u) password)
                     (users db) with
    | Some (_, user) =>
        LoginSuccess (User.id user) (User.name user) (User.role user)
          (User.email user)
    | None => LoginError 401 "Invalid credentials"
    end.

(** ** [GET /api/requests/student/:studentId]

    A route parameter is a string. *)
Definition listByStudent (db : DB) (studentId : string) : list Request.t :=
  array_filter (λ r, strict_eq (Request.studentId r) (VStr studentId))
    (requests db).

(** ** [GET /api/requests/pending] *)
Definition listPending (db : DB) : list Request.t :=
  array_filter (λ r, String.eqb (Request.status r) "pending") (requests db).

(** ** [GET /api/admin/stats] *)

Record Stats := {
  totalRequests : nat;
  pendingRequests : nat;
  approvedToday : nat;
  rejectedToday : nat;
  totalLogs : nat;
  entryLogsToday : nat
}.

(** [a >= b] on two dates, false as soon as one of them is invalid. *)
Definition date_ge (a b : option Z) : bool :=
  match a, b with
  | Some x, Some y => (x >=? y)%Z
  | _, _ => false
  end.

(** [today] is the time value of the local midnight that
    [today.setHours(0, 0, 0, 0)] leaves in [today]. *)
Definition stats `{!Runtime} (today : Z) (db : DB) : Stats :=
  {| totalRequests := length (requests db);
     pendingRequests :=
       length (array_filter (λ r, String.eqb (Request.status r) "pending")
                 (requests db));
     approvedToday :=
       length (array_filter
                 (λ r, if String.eqb (Request.status r) "approved"
                          && truthy (Request.approvedAt r)
                       then date_ge (Date_of (Request.approvedAt r)) (Some today)
                       else false)
                 (requests db));
     rejectedToday :=
       length (array_filter
                 (λ r, if String.eqb (Request.status r) "rejected"
                          && truthy (Request.rejectedAt r)
                       then date_ge (Date_of (Request.rejectedAt r)) (Some today)
                       else false)
                 (requests db));
     totalLogs := length (logs db);
     entryLogsToday :=
       length (array_filter
                 (λ l, date_ge (Date_of (VStr (Log.timestamp l))) (Some today)
                       && strict_eq (Log.type l) (VStr "entry"))
                 (logs db)) |}.

(** ** The pass as it is scanned

    The object that [JSON.parse] makes of [JSON.stringify(qrData)], the
    text the QR code carries: the members of the literal in order, without
    those whose value is [undefined]. *)
Definition json_member (key : string) (v : value) : list (string * value) :=
  match v with
  | VUndefined => []
  | _ => [(key, v)]
  end.

Definition scanned_pass (p : Pass.t) : value :=
  VObj ([("passId", VStr (Pass.passId p))]
        ++ json_member "studentId" (Pass.studentId p)
        ++ json_member "studentName" (Pass.studentName p)
        ++ json_member "reason" (Pass.reason p)
        ++ [("approvedAt", VStr (Pass.approvedAt p));
            ("expiresAt", VStr (Pass.expiresAt p));
            ("used", VBool (Pass.used p))]).

(** ** Notions the further properties are stated with *)

(** The fields of a request that are written once, when it is created. *)
Definition same_identity (r r' : Request.t) : Prop :=
  Request.id r' = Request.id r
  ∧ Request.studentId r' = Request.studentId r
  ∧ Request.studentName r' = Request.studentName r
  ∧ Request.reason r' = Request.reason r
  ∧ Request.expectedTime r' = Request.expectedTime r
  ∧ Request.duration r' = Request.duration r
  ∧ Request.createdAt r' = Request.createdAt r.

(** The replies that report that something was done or that a pass is
    good; every other reply is a refusal. *)
Definition accepted (r : reply) : bool :=
  match r with
  | SuccessRequest _ | SuccessLog _ => true
  | Verdict valid _ _ _ => valid
  | Error _ _ | Threw _ => false
  end.

(** ** More example data *)

Module Tour.

(** The pass stored in [Example.db2], as it is scanned. *)
Definition scanned_of_db2 : option value :=
  '(_, request) ← find_request Example.db2 Example.reqId;
  scanned_pass <$> Request.qrData request.

(** The database after asha asked for leave of "two hours". *)
Definition db_words : DB :=
  (createRequest (H := Reference.runtime) (Example.at_time Example.t0)
     Example.db0 (VStr "STU001") (VStr "medical") (VStr "2023-11-15T09:00")
     (VStr "two hours")).2.

(** The double nearest to a millionth, [1e-6]. *)
Definition millionth : JSNumber.double :=
  JSNumber.div (JSNumber.of_Z 1) (JSNumber.of_Z 1000000).

(** The database after asha asked for a millionth of an hour of leave,
    which is 3.6 milliseconds. *)
Definition db_micro : DB :=
  (createRequest (H := Reference.runtime) (Example.at_time Example.t0)
     Example.db0 (VStr "STU001") (VStr "medical") (VStr "2023-11-15T09:00")
     (VFloat millionth)).2.

(** ... and after the warden approved that request a minute later. *)
Definition db_micro_approved : DB :=
  (approve (H := Reference.runtime) (Example.at_time (Example.t0 + 60000))
     db_micro Example.reqId (VStr "ok")).2.

(** [Example.db1] after the warden rejected the request. *)
Definition db_rejected : DB :=
  (reject (H := Reference.runtime) (Example.at_time (Example.t0 + 60000))
     Example.db1 Example.reqId (VStr "exams")).2.

End Tour.

(** * Properties *)

Section properties.
Context `{!Runtime}.

(** ** [Array.prototype.find] *)

Lemma array_find_Some {A} (f : A → bool) (l : list A) i x :
  array_find f l = Some (i, x) ↔
  l !! i = Some x ∧ f x = true ∧ ∀ j y, l !! j = Some y → j < i → f y = false.
Proof.
  unfold array_find. rewrite list_find_Some. split.
  - intros (Hl & Hx & Hleast). split_and!; [done | by apply Is_true_true |].
    intros j y Hj Hlt. specialize (Hleast j y Hj Hlt).
    by destruct (f y); [destruct Hleast |].
  - intros (Hl & Hx & Hleast). split_and!; [done | by apply Is_true_true |].
    intros j y Hj Hlt. rewrite (Hleast j y Hj Hlt). tauto.
Qed.

Lemma array_find_None {A} (f : A → bool) (l : list A) :
  array_find f l = None ↔ ∀ x, x ∈ l → f x = false.
Proof.
  unfold array_find. rewrite list_find_None, Forall_forall. split.
  - intros Hl x Hx. specialize (Hl x Hx). by destruct (f x); [destruct Hl |].
  - intros Hl x Hx. rewrite (Hl x Hx). tauto.
Qed.

(** Mutating the element [find] returned, without touching what the
    predicate reads, does not change what [find] resolves to. *)
Lemma array_find_insert {A} (f : A → bool) (l : list A) i x x' :
  array_find f l = Some (i, x) → f x' = true →
  array_find f (<[i := x']> l) = Some (i, x').
Proof.
  rewrite !array_find_Some. intros (Hl & Hx & Hleast) Hx'.
  assert (i < length l) by eauto using lookup_lt_Some.
  split_and!; [by apply list_lookup_insert_eq | done |].
  intros j y Hj Hlt. rewrite list_lookup_insert_ne in Hj by lia. eauto.
Qed.

(** [push] leaves what [find] resolves to unchanged. *)
Lemma array_find_push {A} (f : A → bool) (l : list A) i x y :
  array_find f l = Some (i, x) → array_find f (l ++ [y]) = Some (i, x).
Proof. unfold array_find. apply list_find_app_l. Qed.

Lemma find_request_Some db v i r :
  find_request db v = Some (i, r) →
  requests db !! i = Some r ∧ v = VStr (Request.id r).
Proof.
  unfold find_request. rewrite array_find_Some. intros (Hl & Hv & _).
  split; [done |]. destruct v; try discriminate. simpl in Hv.
  apply String.eqb_eq in Hv. by subst.
Qed.

Lemma find_request_None db v :
  find_request db v = None ↔
  ∀ r, r ∈ requests db → v ≠ VStr (Request.id r).
Proof.
  unfold find_request. rewrite array_find_None. split.
  - intros Hl r Hr ->. specialize (Hl r Hr). simpl in Hl.
    by rewrite String.eqb_refl in Hl.
  - intros Hl r Hr. specialize (Hl r Hr). destruct v; try done. simpl.
    apply String.eqb_neq. congruence.
Qed.

Lemma find_request_write db v i r r' :
  find_request db v = Some (i, r) → Request.id r' = Request.id r →
  find_request (write_request db i r') v = Some (i, r').
Proof.
  intros Hfind Hid. unfold find_request, write_request. simpl.
  apply array_find_insert with (x := r); [done |].
  apply find_request_Some in Hfind as [_ ->]. simpl.
  rewrite Hid. apply String.eqb_refl.
Qed.



Lemma strict_eq_str v str : strict_eq v (VStr str) = true ↔ v = VStr str.
Proof.
  destruct v; simpl; try (split; [discriminate | discriminate]).
  rewrite String.eqb_eq. split; congruence.
Qed.

Lemma find_student_Some db v i u :
  find_student db v = Some (i, u) →
  users db !! i = Some u ∧ strict_eq (User.id u) v = true
  ∧ User.role u = VStr "student".
Proof.
  unfold find_student. rewrite array_find_Some. intros (Hl & Hu & _).
  apply andb_true_iff in Hu as [Hid Hrole]. by apply strict_eq_str in Hrole.
Qed.

Lemma find_student_None db v :
  find_student db v = None ↔
  ∀ u, u ∈ users db →
       ¬ (strict_eq (User.id u) v = true ∧ User.role u = VStr "student").
Proof.
  unfold find_student. rewrite array_find_None. split.
  - intros Hl u Hu [Hid Hrole]. specialize (Hl u Hu). simpl in Hl.
    apply strict_eq_str in Hrole. by rewrite Hid, Hrole in Hl.
  - intros Hl u Hu. specialize (Hl u Hu). simpl.
    apply not_true_is_false. intros [Hid Hrole]%andb_true_iff.
    apply Hl. by rewrite <- strict_eq_str.
Qed.

Lemma consume_no_pass r : Request.qrData r = None → consume r = r.
Proof. destruct r. simpl. by intros ->. Qed.

(** ** What a successful approval or rejection did *)

Lemma approve_success s db requestId remarks request' db' :
  approve s db requestId remarks = (SuccessRequest request', db') →
  ∃ i request e url,
    truthy requestId = true
    ∧ find_request db requestId = Some (i, request)
    ∧ Request.status request = "pending"
    ∧ expiryOf (new_Date s) request = Some e
    ∧ toDataURL s (qrDataOf (new_Date s) e request) = Some url
    ∧ request' = approved request remarks (new_Date s) e url
                   (qrDataOf (new_Date s) e request)
    ∧ db' = write_request db i request'.
Proof.
  unfold approve. destruct (truthy requestId); simpl; [| discriminate].
  destruct (find_request db requestId) as [[i request] |] eqn:Hfind;
    [| discriminate].
  destruct (String.eqb_spec (Request.status request) "pending") as [Hst |];
    simpl; [| discriminate].
  destruct (expiryOf _ request) as [e |] eqn:He; [| discriminate].
  destruct (toDataURL s _) as [url |] eqn:Hurl; [| discriminate].
  intros [= <- <-]. by eexists i, request, e, url.
Qed.

Lemma reject_success s db requestId reason request' db' :
  reject s db requestId reason = (SuccessRequest request', db') →
  ∃ i request,
    truthy requestId = true
    ∧ truthy reason = true
    ∧ find_request db requestId = Some (i, request)
    ∧ Request.status request = "pending"
    ∧ request' = rejected request reason (new_Date s)
    ∧ db' = write_request db i request'.
Proof.
  unfold reject.
  destruct (truthy requestId), (truthy reason); simpl; try discriminate.
  destruct (find_request db requestId) as [[i request] |] eqn:Hfind;
    [| discriminate].
  destruct (String.eqb_spec (Request.status request) "pending") as [Hst |];
    simpl; [| discriminate].
  intros [= <- <-]. by eexists i, request.
Qed.

(** Approving or rejecting anything but a pending request is refused and
    changes nothing. *)
Lemma approve_non_pending s db requestId remarks i request :
  truthy requestId = true →
  find_request db requestId = Some (i, request) →
  Request.status request ≠ "pending" →
  approve s db requestId remarks = (InvalidState, db).
Proof.
  intros Hid Hfind Hst. unfold approve. rewrite Hid, Hfind. simpl.
  by apply String.eqb_neq in Hst as ->.
Qed.

Lemma reject_non_pending s db requestId reason i request :
  truthy requestId = true →
  truthy reason = true →
  find_request db requestId = Some (i, request) →
  Request.status request ≠ "pending" →
  reject s db requestId reason = (InvalidState, db).
Proof.
  intros Hid Hreason Hfind Hst. unfold reject. rewrite Hid, Hreason, Hfind.
  simpl. by apply String.eqb_neq in Hst as ->.
Qed.

(** No refusal writes the database. *)
Lemma reject_error_unchanged s db requestId reason code msg db' :
  reject s db requestId reason = (Error code msg, db') → db' = db.
Proof.
  unfold reject.
  destruct (negb (truthy requestId) || negb (truthy reason));
    [by intros [= _ _ <-] |].
  destruct (find_request db requestId) as [[i request] |];
    [| by intros [= _ _ <-]].
  destruct (negb _); [by intros [= _ _ <-] | discriminate].
Qed.

Lemma approve_not_success_unchanged s db requestId remarks :
  (∀ request, (approve s db requestId remarks).1 ≠ SuccessRequest request) →
  (approve s db requestId remarks).2 = db.
Proof.
  unfold approve. destruct (negb (truthy requestId)); [done |].
  destruct (find_request db requestId) as [[i request] |]; [| done].
  destruct (negb _); [done |].
  destruct (expiryOf _ request) as [e |]; [| done].
  destruct (toDataURL s _) as [url |]; [| done].
  simpl. intros Hne. by edestruct Hne.
Qed.

(** ** The stored [used] flag *)

Lemma stored_used_write db passId i request request' :
  find_request db passId = Some (i, request) →
  Request.id request' = Request.id request →
  stored_used (write_request db i request') passId
  = Pass.used <$> Request.qrData request'.
Proof.
  intros Hfind Hid. unfold stored_used.
  by rewrite (find_request_write _ _ _ _ _ Hfind Hid).
Qed.

Lemma recordEntry_requests s db passId type qrData i request :
  truthy passId = true → truthy type = true →
  find_request db passId = Some (i, request) →
  recordEntry s db passId type qrData
  = (SuccessLog (logEntryOf s request passId type),
     {| users := users db;
        requests := <[i := consume request]> (requests db);
        logs := logs db ++ [logEntryOf s request passId type] |}).
Proof. intros Hid Hty Hfind. unfold recordEntry. by rewrite Hid, Hty, Hfind. Qed.

Lemma recordEntry_sets_used s db passId type qrData b :
  truthy passId = true → truthy type = true →
  stored_used db passId = Some b →
  stored_used (recordEntry s db passId type qrData).2 passId = Some true.
Proof.
  intros Hid Hty Hused. unfold stored_used in Hused.
  destruct (find_request db passId) as [[i request] |] eqn:Hfind;
    [| discriminate]. simpl in Hused.
  rewrite (recordEntry_requests _ _ _ _ _ _ _ Hid Hty Hfind). simpl.
  change {| users := users db;
            requests := <[i := consume request]> (requests db);
            logs := ?l |}
    with (write_request {| users := users db; requests := requests db;
                           logs := l |} i (consume request)).
  rewrite stored_used_write with (request := request); [| done | done].
  simpl. by destruct (Request.qrData request).
Qed.

Lemma recordEntry_keeps_used s db passId type qrData :
  stored_used db passId = Some true →
  stored_used (recordEntry s db passId type qrData).2 passId = Some true.
Proof.
  intros Hused.
  destruct (truthy passId) eqn:Hid, (truthy type) eqn:Hty;
    [by eapply recordEntry_sets_used | | |];
    unfold recordEntry; rewrite Hid, Hty; done.
Qed.

Lemma verify_reads_only s db qrData : (verify s db qrData).2 = db.
Proof.
  unfold verify. destruct (negb _); [done |]. by destruct (JSON_parse _).
Qed.

(** ** Status transitions *)

Lemma status_moves_refl st : status_moves st st.
Proof. by left. Qed.

Lemma status_moves_trans st1 st2 st3 :
  status_moves st1 st2 → status_moves st2 st3 → status_moves st1 st3.
Proof.
  unfold status_moves.
  intros [-> | [-> Hdecided]] [-> | [-> Habsurd]]; auto.
Qed.

Lemma status_at_push db request i st :
  status_at db i = Some st →
  status_at {| users := users db; requests := requests db ++ [request];
               logs := logs db |} i = Some st.
Proof.
  unfold status_at. simpl. intros Hst.
  destruct (requests db !! i) as [r |] eqn:Hi; [| discriminate].
  by rewrite (lookup_app_l_Some _ _ _ _ Hi).
Qed.

(** The statuses after the element [find] returned has been replaced. *)
Lemma status_at_write db v j request request' i st :
  find_request db v = Some (j, request) →
  status_moves (Request.status request) (Request.status request') →
  status_at db i = Some st →
  ∃ st', status_at (write_request db j request') i = Some st'
         ∧ status_moves st st'.
Proof.
  intros [Hj _]%find_request_Some Hmoves. unfold status_at. simpl.
  destruct (decide (i = j)) as [-> | Hne].
  - rewrite Hj. intros [= <-].
    rewrite list_lookup_insert_eq by eauto using lookup_lt_Some. by eexists.
  - rewrite list_lookup_insert_ne by done. intros ->. eexists.
    split; [done | apply status_moves_refl].
Qed.

Lemma consume_status request :
  Request.status (consume request) = Request.status request.
Proof. done. Qed.

Lemma step_status db c i st :
  status_at db i = Some st →
  ∃ st', status_at (step db c).2 i = Some st' ∧ status_moves st st'.
Proof.
  intros Hst. destruct c as [s o].
  assert (∃ st', status_at db i = Some st' ∧ status_moves st st') as Hsame.
  { exists st. split; [done | apply status_moves_refl]. }
  destruct o; simpl.
  - unfold createRequest. destruct (_ || _); [done |].
    destruct (find_student db studentId) as [[j student] |]; [| done].
    simpl. eexists. split; [by apply status_at_push | apply status_moves_refl].
  - unfold approve. destruct (negb (truthy requestId)); [done |].
    destruct (find_request db requestId) as [[j request] |] eqn:Hfind;
      [| done].
    destruct (String.eqb_spec (Request.status request) "pending") as [Hp |];
      [| done]. simpl.
    destruct (expiryOf _ request) as [e |]; [| done].
    destruct (toDataURL s _) as [url |]; [| done]. simpl.
    eapply status_at_write; [done | | done].
    right. simpl. auto.
  - unfold reject. destruct (_ || _); [done |].
    destruct (find_request db requestId) as [[j request] |] eqn:Hfind;
      [| done].
    destruct (String.eqb_spec (Request.status request) "pending") as [Hp |];
      [| done]. simpl.
    eapply status_at_write; [done | | done].
    right. simpl. auto.
  - by rewrite verify_reads_only.
  - unfold recordEntry. destruct (_ || _); [done |].
    destruct (find_request db passId) as [[j request] |] eqn:Hfind; [| done].
    simpl.
    change {| users := users db;
              requests := <[j := consume request]> (requests db);
              logs := ?l |}
      with (write_request {| users := users db; requests := requests db;
                             logs := l |} j (consume request)).
    eapply (status_at_write _ passId); [exact Hfind | | done].
    rewrite consume_status. apply status_moves_refl.
Qed.

Lemma run_status cs db i st :
  status_at db i = Some st →
  ∃ st', status_at (run db cs) i = Some st' ∧ status_moves st st'.
Proof.
  revert db st. induction cs as [| c cs IH]; intros db st Hst.
  - exists st. split; [done | apply status_moves_refl].
  - destruct (step_status db c i st Hst) as (st1 & Hst1 & Hmoves1).
    destruct (IH _ _ Hst1) as (st2 & Hst2 & Hmoves2).
    exists st2. split; [done | by eapply status_moves_trans].
Qed.

Lemma run_app db cs1 cs2 : run db (cs1 ++ cs2) = run (run db cs1) cs2.
Proof. unfold run. apply foldl_app. Qed.

(** ** Pending requests carry no trace of an approval *)

Lemma step_pending_unapproved db c :
  pending_unapproved db → pending_unapproved (step db c).2.
Proof.
  intros Hinv. destruct c as [s o]. destruct o; simpl.
  - unfold createRequest. destruct (_ || _); [done |].
    destruct (find_student db studentId) as [[j student] |]; [| done].
    simpl. intros i r [[_ Hi] | [_ <-]]%lookup_snoc_Some Hst;
      [by eapply Hinv |].
    by repeat split.
  - unfold approve. destruct (negb (truthy requestId)); [done |].
    destruct (find_request db requestId) as [[j request] |]; [| done].
    destruct (negb _); [done |].
    destruct (expiryOf _ request) as [e |]; [| done].
    destruct (toDataURL s _) as [url |]; [| done]. simpl.
    intros i r [(_ & <- & _) | [_ Hi]]%list_lookup_insert_Some Hst;
      [discriminate Hst | by eapply Hinv].
  - unfold reject. destruct (_ || _); [done |].
    destruct (find_request db requestId) as [[j request] |]; [| done].
    destruct (negb _); [done |]. simpl.
    intros i r [(_ & <- & _) | [_ Hi]]%list_lookup_insert_Some Hst;
      [discriminate Hst | by eapply Hinv].
  - by rewrite verify_reads_only.
  - unfold recordEntry. destruct (_ || _); [done |].
    destruct (find_request db passId) as [[j request] |] eqn:Hfind; [| done].
    simpl. apply find_request_Some in Hfind as [Hj _].
    intros i r [(-> & <- & _) | [_ Hi]]%list_lookup_insert_Some Hst;
      [| by eapply Hinv].
    rewrite consume_status in Hst.
    destruct (Hinv _ _ Hj Hst) as (? & ? & ? & ? & Hnone).
    by rewrite consume_no_pass.
Qed.

Lemma run_pending_unapproved cs db :
  pending_unapproved db → pending_unapproved (run db cs).
Proof.
  revert db. induction cs as [| c cs IH]; intros db Hinv; [done |].
  apply IH. by apply step_pending_unapproved.
Qed.

Lemma empty_pending_unapproved db : requests db = [] → pending_unapproved db.
Proof. intros Hempty i r. by rewrite Hempty. Qed.

End properties.

(** ** The pass verifier *)





(** ** Creating a request *)

(** C7, as the handler has it.  The request is refused with 400 as soon as
    one of the four fields is falsy: absent, but also [null], [false], [0]
    or the empty string.  Otherwise it is refused with 404 when no stored
    user has the given id and the role [student].  Otherwise the new
    request, pending, with a generated identifier and the name of the
    first such user, is pushed onto the stored requests, which are
    otherwise unchanged, and returned. *)
Theorem createRequest_outcomes `{!Runtime} (s : sys) (db : DB)
    (studentId reason expectedTime duration : value) :
  (truthy studentId = false ∨ truthy reason = false
   ∨ truthy expectedTime = false ∨ truthy duration = false →
     createRequest s db studentId reason expectedTime duration
     = (Error 400 "All fields required", db)) ∧
  (truthy studentId = true ∧ truthy reason = true
   ∧ truthy expectedTime = true ∧ truthy duration = true →
     ((∀ u, u ∈ users db →
          ¬ (strict_eq (User.id u) studentId = true
             ∧ User.role u = VStr "student")) →
        createRequest s db studentId reason expectedTime duration
        = (Error 404 "Student not found", db)) ∧
     (∀ i student, find_student db studentId = Some (i, student) →
        ∃ request,
          createRequest s db studentId reason expectedTime duration
          = (SuccessRequest request,
             {| users := users db;
                requests := requests db ++ [request];
                logs := logs db |})
          ∧ Request.status request = "pending"
          ∧ Request.id request = generateID "REQ" s
          ∧ Request.studentName request = User.name student
          ∧ Request.studentId request = studentId
          ∧ Request.reason request = reason
          ∧ Request.expectedTime request = expectedTime
          ∧ Request.duration request = duration)).
Proof.
  unfold createRequest. split.
  - intros Hfalsy.
    destruct (truthy studentId), (truthy reason), (truthy expectedTime),
      (truthy duration); simpl; try reflexivity.
    by destruct Hfalsy as [? | [? | [? | ?]]].
  - intros (-> & -> & -> & ->). simpl. split.
    + intros Hnone. by apply find_student_None in Hnone as ->.
    + intros i student ->. eexists. split; [reflexivity |]. done.
Qed.

Lemma createRequest_outcomes_witness :
  ∃ request,
    createRequest (H := Reference.runtime) (Example.at_time Example.t0)
      Example.db0 (VStr "STU001") (VStr "medical") (VStr "2023-11-15T09:00")
      (VNum 2)
    = (SuccessRequest request, Example.db1)
    ∧ Request.status request = "pending"
    ∧ Request.id request = "REQ1700000000000417"
    ∧ Request.studentName request = VStr "Asha Rao".
Proof.
  destruct (createRequest_outcomes (H := Reference.runtime)
              (Example.at_time Example.t0) Example.db0 (VStr "STU001")
              (VStr "medical") (VStr "2023-11-15T09:00") (VNum 2))
    as [_ Hok].
  destruct Hok as [_ Hok]; [by split_and! |].
  destruct (Hok 1 Example.asha eq_refl)
    as (request & Heq & Hst & Hid & Hname & _).
  exists request. split_and!; [| done | | done].
  - rewrite Heq. f_equal. unfold Example.db1.
    unfold Example.t0 in Heq |- *. by rewrite Heq.
  - rewrite Hid. reflexivity.
Defined.

(** A request with every field present and a resolvable student is still
    refused when a field is falsy: here a duration of [0] hours. *)
Lemma createRequest_present_but_falsy :
  (VStr "STU001" ≠ VUndefined ∧ VStr "medical" ≠ VUndefined
   ∧ VStr "2023-11-15T09:00" ≠ VUndefined ∧ VNum 0 ≠ VUndefined)
  ∧ find_student Example.db0 (VStr "STU001") = Some (1, Example.asha)
  ∧ createRequest (H := Reference.runtime) (Example.at_time Example.t0)
      Example.db0 (VStr "STU001") (VStr "medical") (VStr "2023-11-15T09:00")
      (VNum 0)
    = (Error 400 "All fields required", Example.db0).
Proof. split_and!; [done.. | reflexivity | reflexivity]. Qed.

(** ** Recording an entry or an exit *)






(** ** Approval *)

(** C4, as the handler has it.  After a successful approval the request,
    as returned and as stored, has the approval time of the handler run as
    [approvedAt] and as [expiresAt] the time the handler computes from it
    and the number [d] the duration stands for: the approval time plus
    [d * 60 * 60 * 1000] milliseconds, exactly, when [d] is an integer, and
    otherwise that sum in doubles cut to a whole number of milliseconds.
    The pass carries the same two dates. *)
Theorem approve_expiry `{!Runtime} (s : sys) (db db' : DB)
    (requestId remarks : value) (request' : Request.t) :
  approve s db requestId remarks = (SuccessRequest request', db') →
  ∃ i e pass,
    find_request db' requestId = Some (i, request')
    ∧ Request.status request' = "approved"
    ∧ Request.approvedAt request' = VStr (toISOString (new_Date s))
    ∧ Request.expiresAt request' = VStr (toISOString e)
    ∧ Request.qrData request' = Some pass
    ∧ Pass.approvedAt pass = toISOString (new_Date s)
    ∧ Pass.expiresAt pass = toISOString e
    ∧ (Z.abs e <= 8640000000000000)%Z
    ∧ (∀ d, ToNumber (Request.duration request') = Some (Int d) →
            e = (new_Date s + d * 60 * 60 * 1000)%Z)
    ∧ (∀ f, ToNumber (Request.duration request') = Some (Float f) →
            JSNumber.to_integer
              (JSNumber.add (JSNumber.of_Z (new_Date s))
                 (JSNumber.mul
                    (JSNumber.mul (JSNumber.mul f (JSNumber.of_Z 60))
                       (JSNumber.of_Z 60))
                    (JSNumber.of_Z 1000)))
            = Some e).
Proof.
  intros (i & request & e & url & _ & Hfind & _ & He & _ & -> & ->)%approve_success.
  exists i, e, (qrDataOf (new_Date s) e request).
  assert (∀ t, TimeClip t = Some e → t = e ∧ (Z.abs e <= 8640000000000000)%Z)
    as Hclip.
  { intros t. unfold TimeClip.
    destruct (Z.gtb_spec (Z.abs t) 8640000000000000); [discriminate |].
    intros [= <-]. split; [done | lia]. }
  assert (∀ d, ToNumber (Request.duration request) = Some d →
               hours_after (new_Date s) d = Some e) as Hhours.
  { intros d Hd. unfold expiryOf in He. by rewrite Hd in He. }
  split_and!; try done.
  - by apply (find_request_write db requestId i request).
  - unfold expiryOf in He.
    destruct (ToNumber (Request.duration request)) as [[n | f] |];
      [| | discriminate]; simpl in He.
    + by apply Hclip in He as [_ ?].
    + destruct (JSNumber.to_integer _) as [t |]; [| discriminate].
      simpl in He. by apply Hclip in He as [_ ?].
  - intros n Hn. apply Hhours in Hn. simpl in Hn.
    by apply Hclip in Hn as [<- _].
  - intros f Hf. apply Hhours in Hf. simpl in Hf.
    destruct (JSNumber.to_integer _) as [t |]; [| discriminate].
    simpl in Hf. by apply Hclip in Hf as [<- _].
Qed.

Lemma approve_expiry_witness :
  ∃ request',
    approve (H := Reference.runtime) (Example.at_time (Example.t0 + 60000))
      Example.db1 Example.reqId (VStr "ok")
    = (SuccessRequest request', Example.db2)
    ∧ find_request Example.db2 Example.reqId = Some (0, request')
    ∧ Request.duration request' = VNum 2
    ∧ Request.approvedAt request' = VStr "2023-11-14T22:14:20.000Z"
    ∧ Request.expiresAt request' = VStr "2023-11-15T00:14:20.000Z".
Proof.
  eexists. split; [reflexivity |].
  edestruct (approve_expiry (H := Reference.runtime)
               (Example.at_time (Example.t0 + 60000)) Example.db1 Example.db2
               Example.reqId (VStr "ok"))
    as (i & e & pass & Hstored & _ & Happroved & Hexpires & _ & _ & _ & _
        & Hhours & _); [reflexivity |].
  split_and!; [reflexivity | reflexivity | |].
  - rewrite Happroved. reflexivity.
  - rewrite Hexpires, (Hhours 2%Z eq_refl). reflexivity.
Defined.

(** A duration of a millionth of an hour is 3.6 milliseconds; the approval
    succeeds and stores an expiry 3 milliseconds after the approval
    date. *)
Lemma approve_expiry_truncated :
  accepted
    (approve (H := Reference.runtime) (Example.at_time (Example.t0 + 60000))
       Tour.db_micro Example.reqId (VStr "ok")).1 = true
  ∧ (λ r, (Request.status r, Request.duration r, Request.approvedAt r,
           Request.expiresAt r)) <$> requests Tour.db_micro_approved !! 0
    = Some ("approved", VFloat Tour.millionth,
            VStr "2023-11-14T22:14:20.000Z", VStr "2023-11-14T22:14:20.003Z")
  ∧ JSNumber.mul
      (JSNumber.mul (JSNumber.mul Tour.millionth (JSNumber.of_Z 60))
         (JSNumber.of_Z 60))
      (JSNumber.of_Z 1000)
    = JSNumber.div (JSNumber.of_Z 36) (JSNumber.of_Z 10).
Proof. split_and!; by vm_compute. Qed.

(** C3.  When the encoder fails, the approval is refused as a whole: the
    reply is the encoding failure and the database is the one the handler
    found, so that the request is still the pending request it was.  None
    of the fields an approval assigns is set on it, in every database in
    which pending requests are unapproved: the databases the operations
    reach from one without requests ([run_pending_unapproved]). *)
Theorem approve_encoding_failure_atomic `{!Runtime} (s : sys) (db : DB)
    (requestId remarks : value) (i : nat) (request : Request.t) (e : Z) :
  truthy requestId = true →
  find_request db requestId = Some (i, request) →
  Request.status request = "pending" →
  expiryOf (new_Date s) request = Some e →
  toDataURL s (qrDataOf (new_Date s) e request) = None →
  ∃ db',
    approve s db requestId remarks = (EncodingFailure, db')
    ∧ db' = db
    ∧ find_request db' requestId = Some (i, request)
    ∧ status_at db' i = Some "pending"
    ∧ (pending_unapproved db → unapproved request).
Proof.
  intros Hid Hfind Hst He Hurl. exists db.
  pose proof Hfind as [Hi _]%find_request_Some.
  split_and!; [| done | done | | by eauto].
  - unfold approve. by rewrite Hid, Hfind, Hst, He, Hurl.
  - unfold status_at. by rewrite Hi; simpl; rewrite Hst.
Qed.

Lemma approve_encoding_failure_atomic_witness :
  approve (H := Reference.runtime) (Example.encoder_down (Example.t0 + 60000))
    Example.db1 Example.reqId (VStr "ok")
  = (EncodingFailure, Example.db1)
  ∧ ∃ request,
      requests Example.db1 !! 0 = Some request
      ∧ Request.status request = "pending"
      ∧ unapproved request.
Proof.
  edestruct (approve_encoding_failure_atomic (H := Reference.runtime)
               (Example.encoder_down (Example.t0 + 60000)) Example.db1
               Example.reqId (VStr "ok"))
    as (db' & Heq & -> & _ & _ & Hunset);
    [reflexivity | reflexivity | reflexivity | reflexivity | reflexivity |].
  split; [exact Heq |]. eexists. split_and!; [reflexivity | reflexivity |].
  apply Hunset.
  apply (step_pending_unapproved (H := Reference.runtime) Example.db0
           (Example.at_time Example.t0,
            CreateRequest (VStr "STU001") (VStr "medical")
              (VStr "2023-11-15T09:00") (VNum 2))).
  by apply empty_pending_unapproved.
Defined.

(** C6.  A request that is not pending can be neither approved nor
    rejected: the call is refused with the invalid-state error and the
    database is left as it was.  In particular, after a rejection, a second
    rejection is refused and the request keeps the reason and the date of
    the first. *)
Theorem non_pending_is_refused `{!Runtime} (s : sys) (db : DB)
    (requestId : value) :
  (∀ remarks i request,
     truthy requestId = true →
     find_request db requestId = Some (i, request) →
     Request.status request ≠ "pending" →
     approve s db requestId remarks = (InvalidState, db)) ∧
  (∀ reason request1 db1,
     reject s db requestId reason = (SuccessRequest request1, db1) →
     ∀ s2 reason2,
       (truthy reason2 = true →
          reject s2 db1 requestId reason2 = (InvalidState, db1))
       ∧ (reject s2 db1 requestId reason2).2 = db1
       ∧ ∃ i, find_request db1 requestId = Some (i, request1)
              ∧ Request.rejectionReason request1 = reason
              ∧ Request.rejectedAt request1 = VStr (toISOString (new_Date s))).
Proof.
  split.
  - intros remarks i request. apply approve_non_pending.
  - intros reason request1 db1
      (i & request & Hid & _ & Hfind & _ & -> & ->)%reject_success
      s2 reason2.
    pose proof (find_request_write db requestId i request
                  (rejected request reason (new_Date s)) Hfind eq_refl)
      as Hfind1.
    assert (truthy reason2 = true →
            reject s2 (write_request db i (rejected request reason (new_Date s)))
              requestId reason2
            = (InvalidState,
               write_request db i (rejected request reason (new_Date s))))
      as Hrefused.
    { intros Hreason2.
      by apply reject_non_pending
        with (i := i) (request := rejected request reason (new_Date s)). }
    split_and!; [done | | by exists i].
    destruct (truthy reason2) eqn:Hreason2; [by rewrite Hrefused |].
    unfold reject. rewrite Hreason2. by rewrite orb_true_r.
Qed.

Lemma non_pending_is_refused_witness :
  approve (H := Reference.runtime) (Example.at_time (Example.t0 + 300000))
    Example.db2 Example.reqId (VStr "again")
  = (InvalidState, Example.db2)
  ∧ ∃ request1 db1,
      reject (H := Reference.runtime) (Example.at_time (Example.t0 + 60000))
        Example.db1 Example.reqId (VStr "exams")
      = (SuccessRequest request1, db1)
      ∧ reject (H := Reference.runtime) (Example.at_time (Example.t0 + 90000))
          db1 Example.reqId (VStr "changed my mind")
        = (InvalidState, db1)
      ∧ Request.rejectionReason request1 = VStr "exams".
Proof.
  split.
  - edestruct (non_pending_is_refused (H := Reference.runtime)
                 (Example.at_time (Example.t0 + 300000)) Example.db2
                 Example.reqId) as [Happrove _].
    eapply (Happrove (VStr "again") 0); [reflexivity | reflexivity |].
    simpl. discriminate.
  - eexists _, _. split; [reflexivity |].
    edestruct (non_pending_is_refused (H := Reference.runtime)
                 (Example.at_time (Example.t0 + 60000)) Example.db1
                 Example.reqId) as [_ Hreject].
    edestruct (Hreject (VStr "exams") _ _ eq_refl
                 (Example.at_time (Example.t0 + 90000))
                 (VStr "changed my mind"))
      as (Hsecond & _ & i & _ & Hreason & _).
    split; [exact (Hsecond eq_refl) | exact Hreason].
Defined.

(** ** The single-use flag *)

(** C2.  After a successful approval the pass of the request is unused.
    The first logged entry or exit for it (a call with any truthy type,
    [entry] and [exit] among them) sets the stored flag, whether or not
    the pass was verified in between, since verifying writes nothing; any
    further call leaves the flag set. *)
Theorem used_flag_lifecycle `{!Runtime} (s : sys) (db db1 : DB)
    (requestId remarks : value) (request' : Request.t) :
  approve s db requestId remarks = (SuccessRequest request', db1) →
  (∃ pass, Request.qrData request' = Some pass ∧ Pass.used pass = false)
  ∧ stored_used db1 requestId = Some false
  ∧ (∀ sv scanned, (verify sv db1 scanned).2 = db1)
  ∧ ∀ s1 type1 q1,
      truthy type1 = true →
      (∃ log, (recordEntry s1 db1 requestId type1 q1).1 = SuccessLog log)
      ∧ stored_used (recordEntry s1 db1 requestId type1 q1).2 requestId
        = Some true
      ∧ ∀ s2 type2 q2,
          stored_used
            (recordEntry s2 (recordEntry s1 db1 requestId type1 q1).2
               requestId type2 q2).2 requestId
          = Some true.
Proof.
  intros (i & request & e & url & Hid & Hfind & _ & _ & _ & -> & ->)%approve_success.
  assert (stored_used
            (write_request db i
               (approved request remarks (new_Date s) e url
                  (qrDataOf (new_Date s) e request))) requestId
          = Some false) as Hfresh.
  { by rewrite stored_used_write with (request := request). }
  split_and!; [by eexists | done | intros; apply verify_reads_only |].
  intros s1 type1 q1 Hty.
  pose proof (recordEntry_sets_used s1 _ requestId type1 q1 false Hid Hty Hfresh)
    as Hused.
  split_and!; [| done | intros; by apply recordEntry_keeps_used].
  unfold recordEntry. rewrite Hid, Hty. simpl.
  erewrite find_request_write; [| exact Hfind | reflexivity].
  by eexists.
Qed.

Lemma used_flag_lifecycle_witness :
  stored_used Example.db2 Example.reqId = Some false
  ∧ stored_used
      (recordEntry (H := Reference.runtime)
         (Example.at_time (Example.t0 + 120000)) Example.db2 Example.reqId
         (VStr "exit") VUndefined).2 Example.reqId
    = Some true
  ∧ stored_used
      (recordEntry (H := Reference.runtime)
         (Example.at_time (Example.t0 + 240000))
         (recordEntry (H := Reference.runtime)
            (Example.at_time (Example.t0 + 120000)) Example.db2 Example.reqId
            (VStr "exit") VUndefined).2
         Example.reqId (VStr "entry") VUndefined).2 Example.reqId
    = Some true.
Proof.
  edestruct (used_flag_lifecycle (H := Reference.runtime)
               (Example.at_time (Example.t0 + 60000)) Example.db1 Example.db2
               Example.reqId (VStr "ok"))
    as (_ & Hfresh & _ & Hlog); [reflexivity |].
  split; [exact Hfresh |].
  destruct (Hlog (Example.at_time (Example.t0 + 120000)) (VStr "exit")
              VUndefined eq_refl) as (_ & Hfirst & Hsecond).
  split; [exact Hfirst |].
  exact (Hsecond (Example.at_time (Example.t0 + 240000)) (VStr "entry")
           VUndefined).
Defined.

(** ** The status of a request *)

(** C5.  In every database reached by a sequence of operations, whatever
    operations follow, the status of a stored request either is what it
    was or has moved from [pending] to [approved] or [rejected]; once it is
    not [pending] it never changes again.  A request is followed by its
    index among the stored requests, which no operation changes. *)
Theorem status_decided_once `{!Runtime} (db0 : DB)
    (before after : list (sys * op)) (i : nat) (st : string) :
  status_at (run db0 before) i = Some st →
  ∃ st',
    status_at (run db0 (before ++ after)) i = Some st'
    ∧ (st' = st ∨ (st = "pending" ∧ (st' = "approved" ∨ st' = "rejected")))
    ∧ (st ≠ "pending" → st' = st).
Proof.
  intros Hst. rewrite run_app.
  destruct (run_status after _ i st Hst) as (st' & Hst' & Hmoves).
  exists st'. split_and!; [done | done |].
  intros Hne. by destruct Hmoves as [-> | [-> _]].
Qed.

Lemma status_decided_once_witness :
  status_at
    (run (H := Reference.runtime) Example.db0
       [(Example.at_time Example.t0,
         CreateRequest (VStr "STU001") (VStr "medical")
           (VStr "2023-11-15T09:00") (VNum 2));
        (Example.at_time (Example.t0 + 60000),
         Reject Example.reqId (VStr "exams"))]) 0
  = Some "rejected"
  ∧ status_at
      (run (H := Reference.runtime) Example.db0
         ([(Example.at_time Example.t0,
            CreateRequest (VStr "STU001") (VStr "medical")
              (VStr "2023-11-15T09:00") (VNum 2));
           (Example.at_time (Example.t0 + 60000),
            Reject Example.reqId (VStr "exams"))]
          ++ [(Example.at_time (Example.t0 + 90000),
               Approve Example.reqId (VStr "ok"));
              (Example.at_time (Example.t0 + 120000),
               RecordEntry Example.reqId (VStr "exit") VUndefined)])) 0
    = Some "rejected".
Proof.
  split; [reflexivity |].
  edestruct (status_decided_once (H := Reference.runtime) Example.db0
               [(Example.at_time Example.t0,
                 CreateRequest (VStr "STU001") (VStr "medical")
                   (VStr "2023-11-15T09:00") (VNum 2));
                (Example.at_time (Example.t0 + 60000),
                 Reject Example.reqId (VStr "exams"))]
               [(Example.at_time (Example.t0 + 90000),
                 Approve Example.reqId (VStr "ok"));
                (Example.at_time (Example.t0 + 120000),
                 RecordEntry Example.reqId (VStr "exit") VUndefined)] 0)
    as (st' & Hst' & _ & Hfinal); [reflexivity |].
  rewrite Hst'. f_equal. apply Hfinal. discriminate.
Defined.

(** ** The examples, end to end *)

Example iso_epoch :
  Reference.iso 0 = "1970-01-01T00:00:00.000Z"
  ∧ Reference.iso 951782400000 = "2000-02-29T00:00:00.000Z"
  ∧ Reference.iso (-1) = "1969-12-31T23:59:59.999Z"
  ∧ Reference.parse_iso "2023-11-14T22:13:20.000Z" = Some Example.t0.
Proof. by vm_compute. Qed.

(** On integer durations the sum in doubles is the sum in integers. *)
Example integer_hours_in_doubles :
  Forall (λ d, hours_after (Example.t0 + 60000) (Float (JSNumber.of_Z d))
               = hours_after (Example.t0 + 60000) (Int d))
    [1; 2; 24; 168; 8760; -3; 1000000; 2399527777; 2399527778;
     9007199254740993]%Z.
Proof. repeat constructor. Qed.

(** Numbers with a fraction, in a JSON text and in a string. *)
Example fractions_parse :
  Reference.parse_json "[0.000001, 2.50, 3.0]"
  = Some (VArr [VFloat Tour.millionth;
                VFloat (JSNumber.div (JSNumber.of_Z 5) (JSNumber.of_Z 2));
                VNum 3])
  ∧ hours_after 0 (Float (JSNumber.div (JSNumber.of_Z 5) (JSNumber.of_Z 2)))
    = Some 9000000%Z
  ∧ ToNumber (H := Reference.runtime) (VStr "2.5")
    = Some (Float (JSNumber.div (JSNumber.of_Z 5) (JSNumber.of_Z 2))).
Proof. by vm_compute. Qed.

Example scanned_parses :
  JSON_parse (Runtime := Reference.runtime) (VStr Example.scanned)
  = Some Example.payload.
Proof. by vm_compute. Qed.

(** The issued pass is valid three minutes after approval, still reported
    valid after the exit was logged (the scanned text says [used: false]),
    and expired once its two hours are over. *)
Example scan_after_use :
  verify (H := Reference.runtime) (Example.at_time (Example.t0 + 180000))
    Example.db2 (VStr Example.scanned)
  = (Verdict true "Valid pass" "green" (Some Example.payload), Example.db2)
  ∧ verify (H := Reference.runtime) (Example.at_time (Example.t0 + 180000))
      Example.db3 (VStr Example.scanned)
    = (Verdict true "Valid pass" "green" (Some Example.payload), Example.db3)
  ∧ verify (H := Reference.runtime)
      (Example.at_time (Example.t0 + 60000 + 7200001))
      Example.db3 (VStr Example.scanned)
    = (Verdict false "Pass expired" "red" (Some Example.payload), Example.db3).
Proof. by vm_compute. Qed.

(** * Further properties *)

Section further.
Context `{!Runtime}.

(** ** What one operation does to a stored request *)

(** The request at an index is left as it is, or it is the pending request
    that [find] resolved and that was approved or rejected, or it is the
    request that [find] resolved and whose pass was marked used. *)
Lemma step_request db c j r :
  requests db !! j = Some r →
  ∃ r', requests (step db c).2 !! j = Some r'
    ∧ (r' = r
       ∨ (∃ v, find_request db v = Some (j, r))
         ∧ ((Request.status r = "pending"
             ∧ ((∃ remarks t e url,
                   r' = approved r remarks t e url (qrDataOf t e r))
                ∨ ∃ reason t, r' = rejected r reason t))
            ∨ r' = consume r)).
Proof.
  intros Hj. destruct c as [s o].
  assert (∀ v request,
            find_request db v = Some (j, request) → request = r) as Hsame.
  { intros v request [Hj' _]%find_request_Some. congruence. }
  assert (∀ v i request (x : Request.t),
            find_request db v = Some (i, request) → i ≠ j →
            <[i := x]> (requests db) !! j = Some r) as Hother.
  { intros v i request x _ Hne. by rewrite list_lookup_insert_ne. }
  assert (∀ v request (x : Request.t),
            find_request db v = Some (j, request) →
            <[j := x]> (requests db) !! j = Some x) as Hhere.
  { intros v request x _. apply list_lookup_insert_eq.
    eauto using lookup_lt_Some. }
  destruct o; simpl.
  - unfold createRequest. destruct (_ || _); [by eauto |].
    destruct (find_student db studentId) as [[k student] |]; [| by eauto].
    simpl. exists r. split; [by apply lookup_app_l_Some | by left].
  - unfold approve. destruct (negb (truthy requestId)); [by eauto |].
    destruct (find_request db requestId) as [[i request] |] eqn:Hfind;
      [| by eauto].
    destruct (String.eqb_spec (Request.status request) "pending") as [Hp |];
      [| by eauto]. simpl.
    destruct (expiryOf _ request) as [e |]; [| by eauto].
    destruct (toDataURL s _) as [url |]; [| by eauto]. simpl.
    destruct (decide (i = j)) as [-> | Hne]; [| by eauto].
    pose proof (Hsame _ _ Hfind) as ->.
    eexists. split; [by eapply Hhere |]. right. split; [by eauto |].
    left. split; [done |]. left. by eexists _, _, _, _.
  - unfold reject. destruct (_ || _); [by eauto |].
    destruct (find_request db requestId) as [[i request] |] eqn:Hfind;
      [| by eauto].
    destruct (String.eqb_spec (Request.status request) "pending") as [Hp |];
      [| by eauto]. simpl.
    destruct (decide (i = j)) as [-> | Hne]; [| by eauto].
    pose proof (Hsame _ _ Hfind) as ->.
    eexists. split; [by eapply Hhere |]. right. split; [by eauto |].
    left. split; [done |]. right. by eexists _, _.
  - rewrite verify_reads_only. by eauto.
  - unfold recordEntry. destruct (_ || _); [by eauto |].
    destruct (find_request db passId) as [[i request] |] eqn:Hfind;
      [| by eauto]. simpl.
    destruct (decide (i = j)) as [-> | Hne]; [| by eauto].
    pose proof (Hsame _ _ Hfind) as ->.
    eexists. split; [by eapply Hhere |]. right. split; [by eauto |].
    by right.
Qed.

Lemma step_identity db c j r :
  requests db !! j = Some r →
  ∃ r', requests (step db c).2 !! j = Some r' ∧ same_identity r r'.
Proof.
  intros Hj. destruct (step_request db c j r Hj) as (r' & Hj' & Hcases).
  exists r'. split; [done |].
  destruct Hcases as [-> | [_ [[_ [(? & ? & ? & ? & ->) | (? & ? & ->)]] | ->]]];
    by repeat split.
Qed.

Lemma same_identity_trans r1 r2 r3 :
  same_identity r1 r2 → same_identity r2 r3 → same_identity r1 r3.
Proof.
  unfold same_identity. intros (? & ? & ? & ? & ? & ? & ?) (? & ? & ? & ? & ? & ? & ?).
  split_and!; congruence.
Qed.

Lemma run_identity cs db j r :
  requests db !! j = Some r →
  ∃ r', requests (run db cs) !! j = Some r' ∧ same_identity r r'.
Proof.
  revert db r. induction cs as [| c cs IH]; intros db r Hj.
  - exists r. split; [done | by repeat split].
  - destruct (step_identity db c j r Hj) as (r1 & Hj1 & Hid1).
    destruct (IH _ _ Hj1) as (r2 & Hj2 & Hid2).
    exists r2. split; [done | by eapply same_identity_trans].
Qed.

(** ** Users and logs *)

Lemma step_users db c : users (step db c).2 = users db.
Proof.
  destruct c as [s o]. destruct o; simpl.
  - unfold createRequest. destruct (_ || _); [done |].
    by destruct (find_student db studentId) as [[k student] |].
  - unfold approve. destruct (negb (truthy requestId)); [done |].
    destruct (find_request db requestId) as [[i request] |]; [| done].
    destruct (negb _); [done |].
    destruct (expiryOf _ request) as [e |]; [| done].
    by destruct (toDataURL s _) as [url |].
  - unfold reject. destruct (_ || _); [done |].
    destruct (find_request db requestId) as [[i request] |]; [| done].
    by destruct (negb _).
  - by rewrite verify_reads_only.
  - unfold recordEntry. destruct (_ || _); [done |].
    by destruct (find_request db passId) as [[i request] |].
Qed.

Lemma run_users cs db : users (run db cs) = users db.
Proof.
  revert db. induction cs as [| c cs IH]; intros db; [done |].
  change (run db (c :: cs)) with (run (step db c).2 cs).
  rewrite IH. apply step_users.
Qed.

(** An operation leaves the logs as they are or pushes the entry it
    returns. *)
Lemma step_logs db c :
  logs (step db c).2 = logs db
  ∨ ∃ log, (step db c).1 = SuccessLog log ∧ logs (step db c).2 = logs db ++ [log].
Proof.
  destruct c as [s o]. destruct o; simpl.
  - unfold createRequest. destruct (_ || _); [by left |].
    destruct (find_student db studentId) as [[k student] |]; by left.
  - unfold approve. destruct (negb (truthy requestId)); [by left |].
    destruct (find_request db requestId) as [[i request] |]; [| by left].
    destruct (negb _); [by left |].
    destruct (expiryOf _ request) as [e |]; [| by left].
    destruct (toDataURL s _) as [url |]; by left.
  - unfold reject. destruct (_ || _); [by left |].
    destruct (find_request db requestId) as [[i request] |]; [| by left].
    destruct (negb _); by left.
  - rewrite verify_reads_only. by left.
  - unfold recordEntry. destruct (_ || _); [by left |].
    destruct (find_request db passId) as [[i request] |]; [| by left].
    right. by eexists.
Qed.

(** ** What [find] resolves to, over time *)

Lemma step_ids db c :
  (Request.id <$> requests db) `prefix_of` (Request.id <$> requests (step db c).2).
Proof.
  assert (∀ v i request x,
            find_request db v = Some (i, request) →
            Request.id x = Request.id request →
            Request.id <$> <[i := x]> (requests db) = Request.id <$> requests db)
    as Hwrite.
  { intros v i request x [Hi _]%find_request_Some Hid.
    rewrite list_fmap_insert, Hid. apply list_insert_id.
    by rewrite list_lookup_fmap, Hi. }
  destruct c as [s o]. destruct o; simpl.
  - unfold createRequest. destruct (_ || _); [done |].
    destruct (find_student db studentId) as [[k student] |]; [| done].
    simpl. rewrite fmap_app. by apply prefix_app_r.
  - unfold approve. destruct (negb (truthy requestId)); [done |].
    destruct (find_request db requestId) as [[i request] |] eqn:Hfind;
      [| done].
    destruct (negb _); [done |].
    destruct (expiryOf _ request) as [e |]; [| done].
    destruct (toDataURL s _) as [url |]; [| done]. simpl.
    by erewrite Hwrite.
  - unfold reject. destruct (_ || _); [done |].
    destruct (find_request db requestId) as [[i request] |] eqn:Hfind;
      [| done].
    destruct (negb _); [done |]. simpl. by erewrite Hwrite.
  - by rewrite verify_reads_only.
  - unfold recordEntry. destruct (_ || _); [done |].
    destruct (find_request db passId) as [[i request] |] eqn:Hfind; [| done].
    simpl. by erewrite Hwrite.
Qed.

Lemma run_ids cs db :
  (Request.id <$> requests db) `prefix_of` (Request.id <$> requests (run db cs)).
Proof.
  revert db. induction cs as [| c cs IH]; intros db; [done |].
  etrans; [apply (step_ids db c) | apply IH].
Qed.

(** [find] resolves an identifier to the same index as long as the stored
    identifiers are only added to. *)
Lemma find_request_stable db db' v i r :
  find_request db v = Some (i, r) →
  (Request.id <$> requests db) `prefix_of` (Request.id <$> requests db') →
  ∃ r', find_request db' v = Some (i, r') ∧ Request.id r' = Request.id r.
Proof.
  intros Hfind [k Hk]. unfold find_request in *.
  apply array_find_Some in Hfind as (Hi & Hv & Hleast).
  assert (∀ j y, requests db !! j = Some y →
                 ∃ y', requests db' !! j = Some y' ∧ Request.id y' = Request.id y)
    as Hkeep.
  { intros j y Hj.
    assert ((Request.id <$> requests db') !! j = Some (Request.id y)) as Hj'.
    { rewrite Hk. apply lookup_app_l_Some. by rewrite list_lookup_fmap, Hj. }
    rewrite list_lookup_fmap in Hj'.
    destruct (requests db' !! j) as [y' |]; [| discriminate].
    exists y'. split; [done |]. by injection Hj'. }
  destruct (Hkeep i r Hi) as (r' & Hi' & Hid). exists r'. split; [| done].
  apply array_find_Some. split_and!; [done | by rewrite Hid |].
  intros j y Hj Hlt.
  assert (j < length (requests db)) as Hlen.
  { apply lookup_lt_Some in Hi. lia. }
  destruct (lookup_lt_is_Some_2 _ _ Hlen) as [y0 Hj0].
  destruct (Hkeep j y0 Hj0) as (y' & Hj' & Hid').
  assert (y' = y) as -> by congruence.
  rewrite Hid'. by eapply Hleast.
Qed.

(** What [find] resolves an identifier to after more operations: the
    request at the same index, with the fields of its creation, its status
    moved at most from pending to decided. *)
Lemma run_resolves cs db v i r :
  find_request db v = Some (i, r) →
  ∃ r', find_request (run db cs) v = Some (i, r')
        ∧ same_identity r r'
        ∧ status_moves (Request.status r) (Request.status r').
Proof.
  intros Hfind.
  destruct (find_request_stable db (run db cs) v i r Hfind (run_ids cs db))
    as (r' & Hfind' & _).
  exists r'. split; [done |].
  pose proof Hfind as [Hi _]%find_request_Some.
  pose proof Hfind' as [Hi' _]%find_request_Some.
  destruct (run_identity cs db i r Hi) as (r'' & Hi'' & Hid).
  assert (r'' = r') as -> by congruence. split; [done |].
  destruct (run_status cs db i (Request.status r)) as (st' & Hst' & Hmoves).
  { unfold status_at. by rewrite Hi. }
  unfold status_at in Hst'. rewrite Hi' in Hst'. simpl in Hst'. congruence.
Qed.

(** A request that comes after one with the same identifier is not what
    [find] resolves any identifier to. *)
Lemma shadowed_not_found db i j r1 r2 v r :
  requests db !! i = Some r1 → requests db !! j = Some r2 → i < j →
  Request.id r1 = Request.id r2 →
  find_request db v ≠ Some (j, r).
Proof.
  intros Hi Hj Hlt Hid Hfind. unfold find_request in Hfind.
  apply array_find_Some in Hfind as (Hj' & Hv & Hleast).
  assert (r = r2) as -> by congruence.
  specialize (Hleast i r1 Hi Hlt). simpl in Hleast, Hv.
  rewrite Hid in Hleast. congruence.
Qed.

(** ** [Array.prototype.filter] *)

Lemma array_filter_app {A} (f : A → bool) l1 l2 :
  array_filter f (l1 ++ l2) = array_filter f l1 ++ array_filter f l2.
Proof. apply filter_app. Qed.

Lemma array_filter_cons {A} (f : A → bool) x l :
  array_filter f (x :: l)
  = if f x then x :: array_filter f l else array_filter f l.
Proof.
  unfold array_filter. rewrite filter_cons.
  destruct (f x); by case_decide.
Qed.

(** The elements kept from an array and from the same array with one
    element replaced. *)
Lemma array_filter_insert {A} (f : A → bool) (l : list A) i x x' :
  l !! i = Some x →
  array_filter f l
  = array_filter f (take i l) ++ (if f x then [x] else [])
    ++ array_filter f (drop (S i) l)
  ∧ array_filter f (<[i := x']> l)
    = array_filter f (take i l) ++ (if f x' then [x'] else [])
      ++ array_filter f (drop (S i) l).
Proof.
  intros Hi. split.
  - rewrite <- (take_drop_middle l i x Hi) at 1.
    rewrite array_filter_app, array_filter_cons. by destruct (f x).
  - rewrite insert_take_drop by eauto using lookup_lt_Some.
    rewrite array_filter_app, array_filter_cons. by destruct (f x').
Qed.

Lemma array_filter_ext {A} (f g : A → bool) (l : list A) :
  (∀ x, x ∈ l → f x = g x) → array_filter f l = array_filter g l.
Proof.
  induction l as [| x l IH]; intros Hext; [done |].
  rewrite !array_filter_cons, (Hext x) by apply list_elem_of_here.
  rewrite IH; [done |]. intros y Hy. apply Hext. by apply list_elem_of_further.
Qed.

(** ** The scanned pass *)

Lemma assoc_json_member k key v rest :
  String.eqb k key = false →
  assoc k (json_member key v ++ rest) = assoc k rest.
Proof. intros Hne. destruct v; simpl; by rewrite ?Hne. Qed.

Lemma scanned_pass_fields p :
  field "passId" (scanned_pass p) = VStr (Pass.passId p)
  ∧ field "used" (scanned_pass p) = VBool (Pass.used p)
  ∧ field "expiresAt" (scanned_pass p) = VStr (Pass.expiresAt p).
Proof.
  unfold scanned_pass, field. split_and!; [done | |];
    simpl; by rewrite !assoc_json_member.
Qed.

(** ** The stored [used] flag, over time *)

Lemma step_used_kept db c v :
  pending_unapproved db →
  stored_used db v = Some true →
  stored_used (step db c).2 v = Some true.
Proof.
  intros Hinv Hused. unfold stored_used in *.
  destruct (find_request db v) as [[i r] |] eqn:Hfind; [| discriminate].
  simpl in Hused.
  destruct (find_request_stable db _ v i r Hfind (step_ids db c))
    as (r' & Hfind' & _).
  rewrite Hfind'. simpl.
  pose proof Hfind as [Hi _]%find_request_Some.
  pose proof Hfind' as [Hi' _]%find_request_Some.
  destruct (step_request db c i r Hi) as (r'' & Hi'' & Hcases).
  assert (r'' = r') as -> by congruence.
  destruct (Request.qrData r) as [p |] eqn:Hp; [| discriminate].
  destruct Hcases as [-> | [_ [[Hpending _] | ->]]].
  - by rewrite Hp.
  - destruct (Hinv i r Hi Hpending) as (_ & _ & _ & _ & Hnone). congruence.
  - simpl. by rewrite Hp.
Qed.

(** ** Counting *)

(** Filters that no element passes two of keep no more than there is. *)
Lemma array_filter_disjoint {A} (f g h : A → bool) (l : list A) :
  (∀ x, f x = true → g x = false ∧ h x = false) →
  (∀ x, g x = true → h x = false) →
  length (array_filter f l) + length (array_filter g l)
  + length (array_filter h l) ≤ length l.
Proof.
  intros Hf Hg. induction l as [| x l IH]; [done |].
  rewrite !array_filter_cons.
  destruct (f x) eqn:Hfx.
  - destruct (Hf x Hfx) as [-> ->]. simpl. lia.
  - destruct (g x) eqn:Hgx.
    + rewrite (Hg x Hgx). simpl. lia.
    + destruct (h x); simpl; lia.
Qed.

Lemma array_filter_length {A} (f : A → bool) (l : list A) :
  length (array_filter f l) ≤ length l.
Proof. apply length_filter. Qed.

Lemma array_filter_insert_length {A} (f : A → bool) (l : list A) i x x' :
  l !! i = Some x →
  length (array_filter f (<[i := x']> l)) + (if f x then 1 else 0)
  = length (array_filter f l) + (if f x' then 1 else 0).
Proof.
  intros Hi. destruct (array_filter_insert f l i x x' Hi) as [-> ->].
  rewrite !length_app. destruct (f x), (f x'); simpl; lia.
Qed.

End further.

(** ** An unreadable database *)

(** X1.  When the database file cannot be read, [readDB] hands the handler
    an empty database, on which every operation is refused and leaves the
    database as it is (so that nothing is written over the file), and no
    login succeeds. *)
Theorem unreadable_database_refuses `{!Runtime} (c : sys * op)
    (username password : value) :
  accepted (step (readDB None) c).1 = false
  ∧ (step (readDB None) c).2 = readDB None
  ∧ ∃ code error, login (readDB None) username password = LoginError code error.
Proof.
  destruct c as [s o]. split_and!.
  - destruct o; simpl.
    + unfold createRequest. by destruct (_ || _).
    + unfold approve. by destruct (negb _).
    + unfold reject. by destruct (_ || _).
    + unfold verify. destruct (negb _); [done |].
      destruct (JSON_parse qrData) as [parsed |]; [| done]. simpl.
      unfold verifyParsed. by destruct (nullish parsed).
    + unfold recordEntry. by destruct (_ || _).
  - destruct o; simpl.
    + unfold createRequest. by destruct (_ || _).
    + unfold approve. by destruct (negb _).
    + unfold reject. by destruct (_ || _).
    + apply verify_reads_only.
    + unfold recordEntry. by destruct (_ || _).
  - unfold login. destruct (_ || _); by eexists _, _.
Qed.

(** ** Logging in *)

(** X2.  A login succeeds exactly when the user name and the password are
    both truthy and some stored user has that user name and that password;
    what it returns are the id, name, role and email of such a user. *)
Theorem login_sound_complete (db : DB) (username password : value) :
  (∀ id name role email,
     login db username password = LoginSuccess id name role email →
     truthy username = true ∧ truthy password = true
     ∧ ∃ user, user ∈ users db
         ∧ strict_eq (User.username user) username = true
         ∧ strict_eq (User.password user) password = true
         ∧ id = User.id user ∧ name = User.name user
         ∧ role = User.role user ∧ email = User.email user)
  ∧ (∀ user, truthy username = true → truthy password = true →
       user ∈ users db →
       strict_eq (User.username user) username = true →
       strict_eq (User.password user) password = true →
       ∃ id name role email,
         login db username password = LoginSuccess id name role email).
Proof.
  unfold login. split.
  - intros id name role email.
    destruct (truthy username), (truthy password); simpl; try discriminate.
    destruct (array_find _ _) as [[i user] |] eqn:Hfind; [| discriminate].
    intros [= <- <- <- <-]. split_and!; [done | done |].
    apply array_find_Some in Hfind as (Hi & [Hu Hp]%andb_true_iff & _).
    exists user. split_and!; try done. by eapply list_elem_of_lookup_2.
  - intros user -> -> Huser Hu Hp. simpl.
    destruct (array_find _ _) as [[i user'] |] eqn:Hfind; [by eexists _, _, _, _ |].
    rewrite array_find_None in Hfind. specialize (Hfind user Huser).
    simpl in Hfind. by rewrite Hu, Hp in Hfind.
Qed.

Lemma login_sound_complete_witness :
  ∃ id name role email,
    login Example.db0 (VStr "asha") (VStr "asha123")
    = LoginSuccess id name role email.
Proof.
  destruct (login_sound_complete Example.db0 (VStr "asha") (VStr "asha123"))
    as [_ Hcomplete].
  apply (Hcomplete Example.asha);
    [reflexivity | reflexivity | | reflexivity | reflexivity].
  unfold Example.db0. simpl. repeat constructor.
Defined.

(** X3.  No sequence of operations changes the stored users: a login is
    answered after it as it was before. *)
Theorem login_unaffected_by_operations `{!Runtime} (db : DB)
    (cs : list (sys * op)) (username password : value) :
  users (run db cs) = users db
  ∧ login (run db cs) username password = login db username password.
Proof. split; [apply run_users |]. unfold login. by rewrite run_users. Qed.

(** ** What the operations keep *)

(** X4.  A stored request is never removed, and the fields written when it
    was created (id, student, reason, expected time, duration, creation
    date) are never changed, whatever operations run. *)
Theorem request_identity_is_fixed `{!Runtime} (db : DB) (cs : list (sys * op))
    (j : nat) (r : Request.t) :
  requests db !! j = Some r →
  ∃ r', requests (run db cs) !! j = Some r' ∧ same_identity r r'.
Proof.
  revert db r. induction cs as [| c cs IH]; intros db r Hj.
  - exists r. split; [done | by repeat split].
  - change (run db (c :: cs)) with (run (step db c).2 cs).
    destruct (step_identity db c j r Hj) as (r1 & Hj1 & Hkept1).
    destruct (IH _ _ Hj1) as (r2 & Hj2 & Hkept2).
    exists r2. split; [done | by eapply same_identity_trans].
Qed.

Lemma request_identity_is_fixed_witness :
  ∃ r',
    requests
      (run (H := Reference.runtime) Example.db1
         [(Example.at_time (Example.t0 + 60000),
           Approve Example.reqId (VStr "ok"));
          (Example.at_time (Example.t0 + 120000),
           RecordEntry Example.reqId (VStr "exit") VUndefined)]) !! 0
    = Some r'
    ∧ Request.reason r' = VStr "medical" ∧ Request.duration r' = VNum 2.
Proof.
  edestruct (request_identity_is_fixed (H := Reference.runtime) Example.db1
               [(Example.at_time (Example.t0 + 60000),
                 Approve Example.reqId (VStr "ok"));
                (Example.at_time (Example.t0 + 120000),
                 RecordEntry Example.reqId (VStr "exit") VUndefined)] 0)
    as (r' & Hr' & _ & _ & _ & Hreason & _ & Hduration & _); [reflexivity |].
  exists r'. split_and!; [exact Hr' | exact Hreason | exact Hduration].
Defined.

(** X5.  The log is append-only: the entries stored before a sequence of
    operations are the first entries stored after it. *)
Theorem logs_append_only `{!Runtime} (db : DB) (cs : list (sys * op)) :
  logs db `prefix_of` logs (run db cs).
Proof.
  revert db. induction cs as [| c cs IH]; intros db; [done |].
  change (run db (c :: cs)) with (run (step db c).2 cs).
  etrans; [| apply IH].
  destruct (step_logs db c) as [-> | (log & _ & ->)]; [done |].
  by apply prefix_app_r.
Qed.

(** X6.  A request stored after another one with the same identifier is
    out of reach: every operation resolves the identifier to the earlier
    one, and the later one is never changed. *)
Theorem shadowed_request_untouched `{!Runtime} (db : DB)
    (cs : list (sys * op)) (i j : nat) (r1 r2 : Request.t) :
  requests db !! i = Some r1 →
  requests db !! j = Some r2 →
  i < j →
  Request.id r1 = Request.id r2 →
  requests (run db cs) !! j = Some r2.
Proof.
  revert db r1. induction cs as [| c cs IH]; intros db r1 Hi Hj Hlt Hid; [done |].
  change (run db (c :: cs)) with (run (step db c).2 cs).
  destruct (step_identity db c i r1 Hi) as (r1' & Hi' & Hid1 & _).
  destruct (step_request db c j r2 Hj) as (r2' & Hj' & Hcases).
  assert (r2' = r2) as ->.
  { destruct Hcases as [-> | [[v Hfind] _]]; [done |].
    by destruct (shadowed_not_found db i j r1 r2 v r2). }
  apply (IH _ r1'); [done | done | done | congruence].
Qed.

Lemma shadowed_request_untouched_witness :
  requests
    (run (H := Reference.runtime)
       {| users := users Example.db1;
          requests := requests Example.db1 ++ requests Example.db1;
          logs := [] |}
       [(Example.at_time (Example.t0 + 60000),
         Approve Example.reqId (VStr "ok"));
        (Example.at_time (Example.t0 + 90000),
         Approve Example.reqId (VStr "ok"))]) !! 1
  = requests Example.db1 !! 0.
Proof.
  eapply (shadowed_request_untouched (H := Reference.runtime) _ _ 0 1);
    [reflexivity | reflexivity | lia | reflexivity].
Defined.

(** X7.  The request a successful [createRequest] returns is the one its
    identifier resolves to afterwards, provided no stored request already
    had that identifier; if one had, the identifier still resolves to that
    one.  The identifier is never empty. *)
Theorem created_request_resolvable `{!Runtime} (s : sys) (db db' : DB)
    (studentId reason expectedTime duration : value) (request : Request.t) :
  createRequest s db studentId reason expectedTime duration
  = (SuccessRequest request, db') →
  truthy (VStr (Request.id request)) = true
  ∧ ((∀ r, r ∈ requests db → Request.id r ≠ Request.id request) →
       find_request db' (VStr (Request.id request))
       = Some (length (requests db), request))
  ∧ (∀ i r, find_request db (VStr (Request.id request)) = Some (i, r) →
       find_request db' (VStr (Request.id request)) = Some (i, r)).
Proof.
  unfold createRequest. destruct (_ || _); [discriminate |].
  destruct (find_student db studentId) as [[k student] |]; [| discriminate].
  intros [= <- <-]. split_and!; [done | |].
  - intros Hfresh. unfold find_request. simpl. apply array_find_Some.
    split_and!.
    + by rewrite lookup_app_r, Nat.sub_diag.
    + simpl. apply String.eqb_refl.
    + intros j y Hj Hlt. rewrite lookup_app_l in Hj by done. simpl.
      apply String.eqb_neq. eapply Hfresh. by eapply list_elem_of_lookup_2.
  - intros i r Hfind. unfold find_request. simpl. by apply array_find_push.
Qed.

Lemma created_request_resolvable_witness :
  find_request Example.db1 Example.reqId
  = Some (0, newRequestOf (H := Reference.runtime) (Example.at_time Example.t0)
                Example.asha (VStr "STU001") (VStr "medical")
                (VStr "2023-11-15T09:00") (VNum 2)).
Proof.
  edestruct (created_request_resolvable (H := Reference.runtime)
               (Example.at_time Example.t0) Example.db0 Example.db1
               (VStr "STU001") (VStr "medical") (VStr "2023-11-15T09:00")
               (VNum 2)) as (_ & Hfresh & _); [reflexivity |].
  apply Hfresh. intros r Hr. exfalso. exact (proj1 (elem_of_nil r) Hr).
Defined.

(** X8.  An operation changes at most one stored request, never a user,
    and the log only by pushing the entry it returns. *)
Theorem step_changes_one_request `{!Runtime} (db : DB) (c : sys * op) :
  (∃ i, ∀ j r, j ≠ i → requests db !! j = Some r →
               requests (step db c).2 !! j = Some r)
  ∧ users (step db c).2 = users db
  ∧ logs db `prefix_of` logs (step db c).2.
Proof.
  split_and!; [| apply step_users |].
  - destruct c as [s o].
    assert (∀ i (x : Request.t) j r, j ≠ i → requests db !! j = Some r →
              <[i := x]> (requests db) !! j = Some r) as Hother.
    { intros i x j r Hne Hj. by rewrite list_lookup_insert_ne. }
    destruct o; simpl.
    + unfold createRequest. destruct (_ || _); [by exists 0 |].
      destruct (find_student db studentId) as [[k student] |]; [| by exists 0].
      exists 0. intros j r _ Hj. simpl. by apply lookup_app_l_Some.
    + unfold approve. destruct (negb (truthy requestId)); [by exists 0 |].
      destruct (find_request db requestId) as [[i request] |]; [| by exists 0].
      destruct (negb _); [by exists 0 |].
      destruct (expiryOf _ request) as [e |]; [| by exists 0].
      destruct (toDataURL s _) as [url |]; [| by exists 0].
      exists i. simpl. by eauto.
    + unfold reject. destruct (_ || _); [by exists 0 |].
      destruct (find_request db requestId) as [[i request] |]; [| by exists 0].
      destruct (negb _); [by exists 0 |]. exists i. simpl. by eauto.
    + rewrite verify_reads_only. by exists 0.
    + unfold recordEntry. destruct (_ || _); [by exists 0 |].
      destruct (find_request db passId) as [[i request] |]; [| by exists 0].
      exists i. simpl. by eauto.
  - destruct (step_logs db c) as [-> | (log & _ & ->)]; [done |].
    by apply prefix_app_r.
Qed.

(** X9.  Under the invariant that pending requests are unapproved, a pass
    that the server has marked used stays marked, whatever operations
    follow. *)
Theorem used_flag_is_permanent `{!Runtime} (db : DB) (cs : list (sys * op))
    (passId : value) :
  pending_unapproved db →
  stored_used db passId = Some true →
  stored_used (run db cs) passId = Some true.
Proof.
  revert db. induction cs as [| c cs IH]; intros db Hinv Hused; [done |].
  change (run db (c :: cs)) with (run (step db c).2 cs).
  apply IH; [by apply step_pending_unapproved | by apply step_used_kept].
Qed.

Lemma used_flag_is_permanent_witness :
  stored_used
    (run (H := Reference.runtime) Example.db3
       [(Example.at_time (Example.t0 + 200000),
         Approve Example.reqId (VStr "once more"));
        (Example.at_time (Example.t0 + 300000),
         Reject Example.reqId (VStr "late"));
        (Example.at_time (Example.t0 + 400000),
         RecordEntry Example.reqId (VStr "entry") VUndefined)])
    Example.reqId
  = Some true.
Proof.
  apply (used_flag_is_permanent (H := Reference.runtime)); [| reflexivity].
  apply (run_pending_unapproved (H := Reference.runtime)
           [(Example.at_time Example.t0,
             CreateRequest (VStr "STU001") (VStr "medical")
               (VStr "2023-11-15T09:00") (VNum 2));
            (Example.at_time (Example.t0 + 60000),
             Approve Example.reqId (VStr "ok"));
            (Example.at_time (Example.t0 + 120000),
             RecordEntry Example.reqId (VStr "exit") VUndefined)]
           Example.db0).
  by apply empty_pending_unapproved.
Defined.

(** ** Approval, again *)

(** X10.  A request whose duration does not convert to a number can never
    be approved: whatever has happened since and whatever the encoder
    does, [approve] does not succeed and leaves the database as it is. *)
Theorem non_numeric_duration_never_approved `{!Runtime} (db : DB)
    (requestId : value) (i : nat) (r : Request.t) :
  find_request db requestId = Some (i, r) →
  ToNumber (Request.duration r) = None →
  ∀ cs s remarks,
    accepted (approve s (run db cs) requestId remarks).1 = false
    ∧ (approve s (run db cs) requestId remarks).2 = run db cs.
Proof.
  intros Hfind Hnan cs s remarks.
  destruct (run_resolves cs db requestId i r Hfind)
    as (r' & Hfind' & (_ & _ & _ & _ & _ & Hduration & _) & _).
  unfold approve. rewrite Hfind'.
  destruct (negb (truthy requestId)); [done |].
  destruct (negb _); [done |].
  unfold expiryOf. by rewrite Hduration, Hnan.
Qed.

Lemma non_numeric_duration_never_approved_witness :
  status_at Tour.db_words 0 = Some "pending"
  ∧ accepted
      (approve (H := Reference.runtime) (Example.at_time (Example.t0 + 60000))
         Tour.db_words Example.reqId (VStr "ok")).1 = false
  ∧ (approve (H := Reference.runtime) (Example.at_time (Example.t0 + 60000))
       Tour.db_words Example.reqId (VStr "ok")).2 = Tour.db_words.
Proof.
  split; [reflexivity |].
  exact (non_numeric_duration_never_approved (H := Reference.runtime)
           Tour.db_words Example.reqId 0 _ eq_refl eq_refl []
           (Example.at_time (Example.t0 + 60000)) (VStr "ok")).
Defined.

(** ** The verifier on hostile input *)

(** X11.  A scanned text that parses to anything but an object never
    verifies, whatever is stored.  A number, a string, a boolean or an
    array is answered "Pass not found".  So is [null] when no request is
    stored; when one is, reading [parsedData.passId] for the first of them
    makes the handler throw. *)
Theorem verify_non_object `{!Runtime} (s : sys) (db : DB) (payload : value) :
  (∀ props, payload ≠ VObj props) →
  (nullish payload = false ∨ requests db = [] →
     verifyParsed s db payload = Verdict false "Pass not found" "red" None)
  ∧ (nullish payload = true → requests db ≠ [] →
       verifyParsed s db payload = Threw "TypeError")
  ∧ accepted (verifyParsed s db payload) = false.
Proof.
  intros Hnot.
  assert (nullish payload = false →
          verifyParsed s db payload = Verdict false "Pass not found" "red" None)
    as Hprimitive.
  { intros Hnull. unfold verifyParsed. rewrite Hnull.
    assert (field "passId" payload = VUndefined) as ->.
    { destruct payload; try done. by destruct (Hnot props). }
    assert (find_request db VUndefined = None) as ->; [| done].
    by apply find_request_None. }
  split_and!.
  - intros [Hnull | Hempty]; [by apply Hprimitive |].
    destruct (nullish payload) eqn:Hnull; [| by apply Hprimitive].
    unfold verifyParsed. by rewrite Hnull, Hempty.
  - intros Hnull Hstored. unfold verifyParsed. rewrite Hnull.
    by destruct (requests db).
  - destruct (nullish payload) eqn:Hnull; [| by rewrite Hprimitive].
    unfold verifyParsed. rewrite Hnull. by destruct (requests db).
Qed.

Lemma verify_non_object_witness :
  verifyParsed (H := Reference.runtime) (Example.at_time Example.t0)
    Example.db2 (VArr [VNum 1; VNum 2])
  = Verdict false "Pass not found" "red" None
  ∧ verifyParsed (H := Reference.runtime) (Example.at_time Example.t0)
      Example.db0 VNull
    = Verdict false "Pass not found" "red" None
  ∧ verifyParsed (H := Reference.runtime) (Example.at_time Example.t0)
      Example.db2 VNull
    = Threw "TypeError".
Proof.
  split_and!.
  - apply (verify_non_object (H := Reference.runtime)); [done | by left].
  - apply (verify_non_object (H := Reference.runtime)); [done | by right].
  - apply (verify_non_object (H := Reference.runtime)); [done | done |].
    unfold Example.db2. discriminate.
Defined.

(** X12.  A payload that holds nothing but the identifier of an approved
    request verifies as valid at every time and after every sequence of
    operations: without [expiresAt] there is no date to be past, without
    [used] nothing says the pass was used. *)
Theorem bare_passId_always_valid `{!Runtime} (db : DB) (id : string)
    (i : nat) (r : Request.t) :
  find_request db (VStr id) = Some (i, r) →
  Request.status r = "approved" →
  ∀ cs s,
    verifyParsed s (run db cs) (VObj [("passId", VStr id)])
    = Verdict true "Valid pass" "green" (Some (VObj [("passId", VStr id)])).
Proof.
  intros Hfind Hst cs s.
  destruct (run_resolves cs db (VStr id) i r Hfind) as (r' & Hfind' & _ & Hmoves).
  assert (Request.status r' = "approved") as Hst'.
  { rewrite Hst in Hmoves. by destruct Hmoves as [-> | [? _]]. }
  unfold verifyParsed. simpl. by rewrite Hfind', Hst'.
Qed.

Lemma bare_passId_always_valid_witness :
  verifyParsed (H := Reference.runtime)
    (Example.at_time (Example.t0 + 1000 * 60 * 60 * 24 * 365)) Example.db3
    (VObj [("passId", Example.reqId)])
  = Verdict true "Valid pass" "green" (Some (VObj [("passId", Example.reqId)])).
Proof.
  apply (bare_passId_always_valid (H := Reference.runtime) Example.db2
           "REQ1700000000000417" 0 _ eq_refl eq_refl
           [(Example.at_time (Example.t0 + 120000),
             RecordEntry Example.reqId (VStr "exit") VUndefined)]).
Defined.

(** X13.  The pass issued by an approval, scanned as it was encoded,
    verifies as valid up to and including the instant read from its
    [expiresAt] and as expired after it, whatever operations have run in
    between; logging its use does not change that, since the text in the
    code still says [used: false]. *)
Theorem issued_pass_valid_until_expiry `{!Runtime} (s : sys) (db db1 : DB)
    (requestId remarks : value) (request' : Request.t) (pass : Pass.t) (e : Z) :
  approve s db requestId remarks = (SuccessRequest request', db1) →
  Request.qrData request' = Some pass →
  Date_of (VStr (Pass.expiresAt pass)) = Some e →
  ∀ cs s',
    verifyParsed s' (run db1 cs) (scanned_pass pass)
    = if (new_Date s' >? e)%Z
      then Verdict false "Pass expired" "red" (Some (scanned_pass pass))
      else Verdict true "Valid pass" "green" (Some (scanned_pass pass)).
Proof.
  intros (i & request & e0 & url & _ & Hfind & _ & _ & _ & -> & ->)%approve_success
    [= <-] He cs s'.
  pose proof (find_request_write db requestId i request
                (approved request remarks (new_Date s) e0 url
                   (qrDataOf (new_Date s) e0 request)) Hfind eq_refl) as Hfind1.
  apply find_request_Some in Hfind as [_ ->].
  destruct (run_resolves cs _ _ _ _ Hfind1) as (r' & Hfind' & _ & Hmoves).
  assert (Request.status r' = "approved") as Hst'.
  { simpl in Hmoves. by destruct Hmoves as [-> | [? _]]. }
  destruct (scanned_pass_fields (qrDataOf (new_Date s) e0 request))
    as (Hid & Hused & Hexp).
  unfold verifyParsed. rewrite Hid, Hused, Hexp. simpl.
  simpl in Hfind', He. rewrite Hfind', Hst', He. done.
Qed.

Lemma issued_pass_valid_until_expiry_witness :
  Tour.scanned_of_db2 = Some Example.payload
  ∧ verifyParsed (H := Reference.runtime)
      (Example.at_time (Example.t0 + 60000 + 7200000)) Example.db3
      Example.payload
    = Verdict true "Valid pass" "green" (Some Example.payload)
  ∧ verifyParsed (H := Reference.runtime)
      (Example.at_time (Example.t0 + 60000 + 7200001)) Example.db3
      Example.payload
    = Verdict false "Pass expired" "red" (Some Example.payload).
Proof.
  split; [reflexivity |].
  pose proof (issued_pass_valid_until_expiry (H := Reference.runtime)
                (Example.at_time (Example.t0 + 60000)) Example.db1 Example.db2
                Example.reqId (VStr "ok") _ _ (Example.t0 + 60000 + 7200000)
                eq_refl eq_refl eq_refl
                [(Example.at_time (Example.t0 + 120000),
                  RecordEntry Example.reqId (VStr "exit") VUndefined)])
    as Hverdict.
  split.
  - exact (Hverdict (Example.at_time (Example.t0 + 60000 + 7200000))).
  - exact (Hverdict (Example.at_time (Example.t0 + 60000 + 7200001))).
Defined.

(** X14.  A rejected request never verifies: after a successful [reject],
    every payload carrying its identifier is answered "Pass not approved",
    whatever operations follow. *)
Theorem rejected_never_verifies `{!Runtime} (s : sys) (db db1 : DB)
    (requestId reason : value) (request1 : Request.t) :
  reject s db requestId reason = (SuccessRequest request1, db1) →
  ∀ cs s' payload,
    nullish payload = false →
    field "passId" payload = requestId →
    verifyParsed s' (run db1 cs) payload
    = Verdict false "Pass not approved" "red" None.
Proof.
  intros (i & request & _ & _ & Hfind & _ & -> & ->)%reject_success
    cs s' payload Hobj Hid.
  pose proof (find_request_write db requestId i request
                (rejected request reason (new_Date s)) Hfind eq_refl) as Hfind1.
  destruct (run_resolves cs _ _ _ _ Hfind1) as (r' & Hfind' & _ & Hmoves).
  assert (Request.status r' = "rejected") as Hst'.
  { simpl in Hmoves. by destruct Hmoves as [-> | [? _]]. }
  unfold verifyParsed. by rewrite Hobj, Hid, Hfind', Hst'.
Qed.

Lemma rejected_never_verifies_witness :
  status_at Tour.db_rejected 0 = Some "rejected"
  ∧ verifyParsed (H := Reference.runtime)
      (Example.at_time (Example.t0 + 90000))
      (run (H := Reference.runtime) Tour.db_rejected
         [(Example.at_time (Example.t0 + 70000),
           Approve Example.reqId (VStr "ok"))])
      Example.payload
    = Verdict false "Pass not approved" "red" None.
Proof.
  split; [reflexivity |].
  assert (∃ request1,
            reject (H := Reference.runtime)
              (Example.at_time (Example.t0 + 60000)) Example.db1
              Example.reqId (VStr "exams")
            = (SuccessRequest request1, Tour.db_rejected)) as [request1 Heq].
  { eexists. reflexivity. }
  by apply (rejected_never_verifies (H := Reference.runtime) _ _ _ _ _ _ Heq).
Defined.

(** ** The listings *)

(** X15.  After a successful [createRequest], the listing of a student
    ends with the new request when the request's student id is that
    string, and is unchanged otherwise (also when the id was given as a
    number: a route parameter is a string); the pending listing ends with
    the new request. *)
Theorem createRequest_listed `{!Runtime} (s : sys) (db db' : DB)
    (studentId reason expectedTime duration : value) (request : Request.t) :
  createRequest s db studentId reason expectedTime duration
  = (SuccessRequest request, db') →
  (∀ sid, studentId = VStr sid →
          listByStudent db' sid = listByStudent db sid ++ [request])
  ∧ (∀ sid, studentId ≠ VStr sid → listByStudent db' sid = listByStudent db sid)
  ∧ listPending db' = listPending db ++ [request].
Proof.
  unfold createRequest. destruct (_ || _); [discriminate |].
  destruct (find_student db studentId) as [[k student] |]; [| discriminate].
  intros [= <- <-]. unfold listByStudent, listPending. simpl. split_and!.
  - intros sid Hsid. rewrite array_filter_app, array_filter_cons. simpl.
    by rewrite (proj2 (strict_eq_str _ _) Hsid).
  - intros sid Hsid. rewrite array_filter_app, array_filter_cons. simpl.
    destruct (strict_eq studentId (VStr sid)) eqn:Heq;
      [by apply strict_eq_str in Heq | apply app_nil_r].
  - by rewrite array_filter_app.
Qed.

Lemma createRequest_listed_witness :
  listByStudent Example.db1 "STU001" = requests Example.db1
  ∧ listByStudent Example.db1 "STU002" = []
  ∧ listPending Example.db1 = requests Example.db1.
Proof.
  destruct (createRequest_listed (H := Reference.runtime)
              (Example.at_time Example.t0) Example.db0 Example.db1
              (VStr "STU001") (VStr "medical") (VStr "2023-11-15T09:00")
              (VNum 2) _ eq_refl) as (Hown & Hother & Hpending).
  split_and!.
  - exact (Hown "STU001" eq_refl).
  - apply (Hother "STU002"). discriminate.
  - exact Hpending.
Defined.

(** X16.  A successful approval or rejection takes exactly the decided
    request out of the pending listing and leaves the rest of it, in
    order. *)
Theorem decision_leaves_pending `{!Runtime} (s : sys) (db db' : DB)
    (requestId v : value) (request' : Request.t) :
  approve s db requestId v = (SuccessRequest request', db')
  ∨ reject s db requestId v = (SuccessRequest request', db') →
  ∃ before request after,
    listPending db = before ++ request :: after
    ∧ listPending db' = before ++ after
    ∧ Request.id request = Request.id request'
    ∧ Request.status request = "pending"
    ∧ Request.status request' ≠ "pending".
Proof.
  intros Hdecided.
  assert (∃ i request,
            find_request db requestId = Some (i, request)
            ∧ Request.status request = "pending"
            ∧ Request.status request' ≠ "pending"
            ∧ Request.id request = Request.id request'
            ∧ db' = write_request db i request') as
    (i & request & Hfind & Hst & Hst' & Hid & ->).
  { destruct Hdecided as
      [(i & request & e & url & _ & Hfind & Hst & _ & _ & -> & ->)%approve_success
      | (i & request & _ & _ & Hfind & Hst & -> & ->)%reject_success];
      by exists i, request. }
  apply find_request_Some in Hfind as [Hi _].
  destruct (array_filter_insert
              (λ r, String.eqb (Request.status r) "pending")
              (requests db) i request request' Hi) as [Hold Hnew].
  apply String.eqb_eq in Hst as Hst_b. apply String.eqb_neq in Hst' as Hst'_b.
  rewrite Hst_b in Hold. rewrite Hst'_b in Hnew.
  eexists _, request, _. unfold listPending. simpl.
  split_and!; [exact Hold | exact Hnew | done | by apply String.eqb_eq | done].
Qed.

Lemma decision_leaves_pending_witness :
  listPending Example.db1 = requests Example.db1
  ∧ listPending Example.db2 = []
  ∧ listPending Tour.db_rejected = [].
Proof.
  split; [reflexivity |].
  assert (length (listPending Example.db1) = 1) as Hone by reflexivity.
  assert (∃ request', approve (H := Reference.runtime)
                        (Example.at_time (Example.t0 + 60000)) Example.db1
                        Example.reqId (VStr "ok")
                      = (SuccessRequest request', Example.db2))
    as [approved_request Happrove] by (eexists; reflexivity).
  assert (∃ request', reject (H := Reference.runtime)
                        (Example.at_time (Example.t0 + 60000)) Example.db1
                        Example.reqId (VStr "exams")
                      = (SuccessRequest request', Tour.db_rejected))
    as [rejected_request Hreject] by (eexists; reflexivity).
  split.
  - destruct (decision_leaves_pending (H := Reference.runtime) _ _ _ _ _ _
                (or_introl Happrove))
      as (before & request & after & Hold & -> & _).
    rewrite Hold, length_app in Hone.
    destruct before, after; [reflexivity | | |]; exfalso; cbn in Hone; lia.
  - destruct (decision_leaves_pending (H := Reference.runtime) _ _ _ _ _ _
                (or_intror Hreject))
      as (before & request & after & Hold & -> & _).
    rewrite Hold, length_app in Hone.
    destruct before, after; [reflexivity | | |]; exfalso; cbn in Hone; lia.
Defined.

(** ** The dashboard *)

(** X17.  The pending requests, the requests approved today and the
    requests rejected today are counted among the requests without overlap,
    and the entries of today among the logs. *)
Theorem stats_bounds `{!Runtime} (today : Z) (db : DB) :
  pendingRequests (stats today db) + approvedToday (stats today db)
  + rejectedToday (stats today db) ≤ totalRequests (stats today db)
  ∧ entryLogsToday (stats today db) ≤ totalLogs (stats today db).
Proof.
  split; [| apply array_filter_length].
  apply array_filter_disjoint.
  - intros r ->%String.eqb_eq. done.
  - intros r Happroved.
    destruct (String.eqb_spec (Request.status r) "approved") as [-> |];
      [done | discriminate].
Qed.

(** X18.  A successful [createRequest] adds one to the total and to the
    pending count of the dashboard and leaves its other counts. *)
Theorem stats_after_createRequest `{!Runtime} (today : Z) (s : sys)
    (db db' : DB) (studentId reason expectedTime duration : value)
    (request : Request.t) :
  createRequest s db studentId reason expectedTime duration
  = (SuccessRequest request, db') →
  stats today db'
  = {| totalRequests := S (totalRequests (stats today db));
       pendingRequests := S (pendingRequests (stats today db));
       approvedToday := approvedToday (stats today db);
       rejectedToday := rejectedToday (stats today db);
       totalLogs := totalLogs (stats today db);
       entryLogsToday := entryLogsToday (stats today db) |}.
Proof.
  unfold createRequest. destruct (_ || _); [discriminate |].
  destruct (find_student db studentId) as [[k student] |]; [| discriminate].
  intros [= <- <-]. unfold stats. simpl.
  rewrite !array_filter_app, !length_app. simpl.
  f_equal; lia.
Qed.

Lemma stats_after_createRequest_witness :
  stats (H := Reference.runtime) (Example.t0 - 3600000) Example.db1
  = {| totalRequests := 1; pendingRequests := 1; approvedToday := 0;
       rejectedToday := 0; totalLogs := 0; entryLogsToday := 0 |}.
Proof.
  by rewrite (stats_after_createRequest (H := Reference.runtime)
                (Example.t0 - 3600000) (Example.at_time Example.t0)
                Example.db0 Example.db1 (VStr "STU001") (VStr "medical")
                (VStr "2023-11-15T09:00") (VNum 2) _ eq_refl).
Defined.

(** X19.  A successful approval leaves the total of the dashboard, takes
    one off its pending count, leaves the count of today's rejections and
    adds at most one to the count of today's approvals: exactly one when
    the approval date the handler wrote is not empty and reads back as a
    date that is not before today's midnight. *)
Theorem stats_after_approve `{!Runtime} (today : Z) (s : sys) (db db' : DB)
    (requestId remarks : value) (request' : Request.t) :
  approve s db requestId remarks = (SuccessRequest request', db') →
  totalRequests (stats today db') = totalRequests (stats today db)
  ∧ S (pendingRequests (stats today db')) = pendingRequests (stats today db)
  ∧ rejectedToday (stats today db') = rejectedToday (stats today db)
  ∧ totalLogs (stats today db') = totalLogs (stats today db)
  ∧ approvedToday (stats today db')
    = approvedToday (stats today db)
      + (if truthy (VStr (toISOString (new_Date s)))
            && date_ge (Date_of (VStr (toISOString (new_Date s)))) (Some today)
         then 1 else 0).
Proof.
  intros (i & request & e & url & _ & Hfind & Hst & _ & _ & -> & ->)%approve_success.
  apply find_request_Some in Hfind as [Hi _].
  set (request' := approved request remarks (new_Date s) e url
                     (qrDataOf (new_Date s) e request)).
  pose proof (array_filter_insert_length
                (λ r, String.eqb (Request.status r) "pending")
                (requests db) i request request' Hi) as Hpending.
  pose proof (array_filter_insert_length
                (λ r, if String.eqb (Request.status r) "rejected"
                         && truthy (Request.rejectedAt r)
                      then date_ge (Date_of (Request.rejectedAt r)) (Some today)
                      else false)
                (requests db) i request request' Hi) as Hrejected.
  pose proof (array_filter_insert_length
                (λ r, if String.eqb (Request.status r) "approved"
                         && truthy (Request.approvedAt r)
                      then date_ge (Date_of (Request.approvedAt r)) (Some today)
                      else false)
                (requests db) i request request' Hi) as Happroved.
  simpl in Hpending, Hrejected, Happroved.
  rewrite Hst in Hpending, Hrejected, Happroved.
  simpl in Hpending, Hrejected, Happroved.
  unfold stats. simpl. split_and!; [apply length_insert | lia | lia | done |].
  rewrite Nat.add_0_r in Happroved. rewrite Happroved.
  by destruct (negb _).
Qed.

Lemma stats_after_approve_witness :
  pendingRequests (stats (H := Reference.runtime) (Example.t0 - 3600000) Example.db1)
  = S (pendingRequests
         (stats (H := Reference.runtime) (Example.t0 - 3600000) Example.db2))
  ∧ approvedToday
      (stats (H := Reference.runtime) (Example.t0 - 3600000) Example.db2)
    = 1
  ∧ approvedToday
      (stats (H := Reference.runtime) (Example.t0 + 86400000) Example.db2)
    = 0.
Proof.
  assert (∃ request', approve (H := Reference.runtime)
                        (Example.at_time (Example.t0 + 60000)) Example.db1
                        Example.reqId (VStr "ok")
                      = (SuccessRequest request', Example.db2))
    as [request' Happrove] by (eexists; reflexivity).
  destruct (stats_after_approve (H := Reference.runtime)
              (Example.t0 - 3600000) _ _ _ _ _ _ Happrove)
    as (_ & Hpending & _ & _ & Htoday).
  destruct (stats_after_approve (H := Reference.runtime)
              (Example.t0 + 86400000) _ _ _ _ _ _ Happrove)
    as (_ & _ & _ & _ & Htomorrow).
  split_and!.
  - symmetry. exact Hpending.
  - rewrite Htoday. vm_compute. reflexivity.
  - rewrite Htomorrow. vm_compute. reflexivity.
Defined.
